(** * DenseSeg: the loss functions of [training/forward_func.py]

    A shallow embedding of the per-class losses, the loss composition and the
    heatmap synthesis of [src/training/forward_func.py].

    Numbers.  A tensor entry is a real number or the not-a-number marker: the
    model keeps the way NaN spreads through arithmetic and is tested by
    [isnan], and leaves rounding, overflow and the infinities of IEEE
    arithmetic out.

    Tensors.  A tensor is its shape together with its indexing function; the
    entries outside the shape are never read.  The tensors of one call share
    one shape (B, C, 2, H, W), as the source unpacks it from [uv.shape]:
    broadcasting between unequal shapes is not modelled.  A result tensor of
    shape (batch, class) is materialised as a list of rows.

    Library functions.  [normalize_pixel_coordinates] (kornia) and
    [F.grid_sample] (torch) are parameters of the sparse loss; the theorems
    hold for every choice of them. *)

From Stdlib Require Import String.
From Stdlib Require Import Reals Lra Lia List Arith ZArith Bool.
Import ListNotations.

Set Implicit Arguments.

(** ** Exceptions and results *)

Inductive exn : Type :=
| AssertionError (msg : string)
| ValueError (msg : string)
| UnboundLocalError (name : string)
| RuntimeError (msg : string)
| IndexError (msg : string).

Inductive result (A : Type) : Type :=
| Ok (a : A)
| Err (e : exn).

Arguments Ok {A} a.
Arguments Err {A} e.

Definition bind {A B : Type} (r : result A) (k : A -> result B) : result B :=
  match r with
  | Ok a => k a
  | Err e => Err e
  end.

Notation "x <- r ;; k" := (bind r (fun x => k))
  (at level 61, r at next level, right associativity).

(** [assert cond, msg] *)
Definition assert (cond : bool) (msg : string) : result unit :=
  if cond then Ok tt else Err (AssertionError msg).

(** ** Scalars *)

Inductive scalar : Type :=
| NaN
| Num (r : R).

Definition isnan (s : scalar) : bool :=
  match s with
  | NaN => true
  | Num _ => false
  end.

Definition lift1 (op : R -> R) (a : scalar) : scalar :=
  match a with
  | Num x => Num (op x)
  | NaN => NaN
  end.

Definition lift2 (op : R -> R -> R) (a b : scalar) : scalar :=
  match a, b with
  | Num x, Num y => Num (op x y)
  | _, _ => NaN
  end.

Definition sadd : scalar -> scalar -> scalar := lift2 Rplus.
Definition ssub : scalar -> scalar -> scalar := lift2 Rminus.
Definition smul : scalar -> scalar -> scalar := lift2 Rmult.
Definition sneg : scalar -> scalar := lift1 Ropp.
Definition sabs : scalar -> scalar := lift1 Rabs.
Definition sexp : scalar -> scalar := lift1 exp.

(** A quotient by zero is an infinity or NaN in IEEE arithmetic; the model
    has no infinities and answers NaN.  The losses divide by a count plus
    one or by a constant, the means by a number of entries. *)
Definition sdiv (a b : scalar) : scalar :=
  match a, b with
  | Num x, Num y => if Req_dec_T y 0 then NaN else Num (x / y)
  | _, _ => NaN
  end.

(** [x.pow(2)] *)
Definition spow2 (a : scalar) : scalar := smul a a.

(** The square root of a negative number is NaN. *)
Definition ssqrt (a : scalar) : scalar :=
  match a with
  | Num x => if Rlt_dec x 0 then NaN else Num (sqrt x)
  | NaN => NaN
  end.

Definition of_nat (n : nat) : scalar := Num (INR n).
Definition of_Z (z : Z) : scalar := Num (IZR z).

(** [t.sum()] over a list of entries. *)
Definition ssum (l : list scalar) : scalar := fold_right sadd (Num 0) l.

(** [t.mean()]: the sum over the number of entries (NaN for no entry). *)
Definition smean (l : list scalar) : scalar := sdiv (ssum l) (of_nat (length l)).

(** [m.sum()] of a boolean tensor: the number of true entries. *)
Definition count_true (l : list bool) : nat := length (filter (fun b => b) l).

(** ** Shapes and tensors *)

(** The shape (B, C, 2, H, W) of a correspondence map; the third axis holds
    the two UV coordinates. *)
Record Shape : Type := mkShape {
  batch : nat;
  classes : nat;
  height : nat;
  width : nat
}.

Definition UV : nat := 2.

(** A (B, C, 2, H, W) tensor, indexed by batch, class, coordinate, row, column. *)
Definition tensor5 : Type := nat -> nat -> nat -> nat -> nat -> scalar.

(** A (B, C, H, W) boolean mask. *)
Definition mask4 : Type := nat -> nat -> nat -> nat -> bool.

(** A (B, C, n) tensor and its boolean counterpart. *)
Definition tensor3 : Type := nat -> nat -> nat -> scalar.
Definition mask3 : Type := nat -> nat -> nat -> bool.

(** A (B, C) result. *)
Definition matrix : Type := list (list scalar).

Definition range (n : nat) : list nat := seq 0 n.

(** The (B, C) tensor with entry [f b c]. *)
Definition tabulate2 (B C : nat) (f : nat -> nat -> scalar) : matrix :=
  map (fun b => map (fun c => f b c) (range C)) (range B).

(** [t.flatten(start_dim=2)]: (B, C, 2, H, W) -> (B, C, 2 * H * W), row-major. *)
Definition flat_len (sh : Shape) : nat := UV * (height sh * width sh).

Definition flatten2 (sh : Shape) (t : tensor5) : tensor3 :=
  fun b c k =>
    t b c (k / (height sh * width sh))
          ((k mod (height sh * width sh)) / width sh)
          (k mod width sh).

(** [torch.where(m, a, t)] with a scalar first branch. *)
Definition where_scalar (m : mask3) (a : scalar) (t : tensor3) : tensor3 :=
  fun b c k => if m b c k then a else t b c k.

(** [t.sum(-1)] and [m.sum(-1)] on (B, C, n). *)
Definition sum_last (n : nat) (t : tensor3) (b c : nat) : scalar :=
  ssum (map (t b c) (range n)).

Definition count_last (n : nat) (m : mask3) (b c : nat) : nat :=
  count_true (map (m b c) (range n)).

(** [m.all()] and [m.any()] over a (B, C, 2, H, W) tensor of booleans. *)
Definition all5 (sh : Shape) (m : nat -> nat -> nat -> nat -> nat -> bool) : bool :=
  forallb (fun b => forallb (fun c => forallb (fun u =>
    forallb (fun y => forallb (fun x => m b c u y x) (range (width sh)))
            (range (height sh))) (range UV)) (range (classes sh))) (range (batch sh)).

Definition any5 (sh : Shape) (m : nat -> nat -> nat -> nat -> nat -> bool) : bool :=
  existsb (fun b => existsb (fun c => existsb (fun u =>
    existsb (fun y => existsb (fun x => m b c u y x) (range (width sh)))
            (range (height sh))) (range UV)) (range (classes sh))) (range (batch sh)).

(** ** Base losses *)

(** A [torch.nn] loss: its [reduction] attribute and its per-element formula. *)
Inductive Reduction : Type := RNone | RMean | RSum.

Definition Reduction_eqb (a b : Reduction) : bool :=
  match a, b with
  | RNone, RNone | RMean, RMean | RSum, RSum => true
  | _, _ => false
  end.

Record Loss : Type := mkLoss {
  reduction : Reduction;
  elementwise : scalar -> scalar -> scalar
}.

(** [loss_fn(a, b)] of a loss without reduction, entry by entry. *)
Definition apply_loss (loss_fn : Loss) (a b : tensor3) : tensor3 :=
  fun i j k => elementwise loss_fn (a i j k) (b i j k).

Definition L1Loss (r : Reduction) : Loss :=
  mkLoss r (fun a b => sabs (ssub a b)).

Definition MSELoss (r : Reduction) : Loss :=
  mkLoss r (fun a b => spow2 (ssub a b)).

(** ** Dense UV regression loss *)

(** [balanced_normalized_uv_loss(uv_hat, uv, loss_fn)]; both maps have the
    shape [sh]. *)
Definition balanced_normalized_uv_loss (sh : Shape) (uv_hat uv : tensor5)
    (loss_fn : Loss) : result matrix :=
  _ <- assert (Reduction_eqb (reduction loss_fn) RNone)
         "loss_fn must have reduction set to none" ;;
  _ <- assert (negb (all5 sh (fun b c u y x => isnan (uv b c u y x))))
         "uv must contain some valid values" ;;
  let n := flat_len sh in
  let uv_hat_flat := flatten2 sh uv_hat in
  let uv_flat := flatten2 sh uv in
  let nan_gt_mask : mask3 := fun b c k => isnan (uv_flat b c k) in
  let uv_flat := where_scalar nan_gt_mask (Num 0) uv_flat in
  let uv_hat_flat := where_scalar nan_gt_mask (Num 0) uv_hat_flat in
  let valid_pxl := count_last n (fun b c k => negb (nan_gt_mask b c k)) in
  Ok (tabulate2 (batch sh) (classes sh) (fun b c =>
        sdiv (sum_last n (apply_loss loss_fn uv_hat_flat uv_flat) b c)
             (of_nat (valid_pxl b c + 1)))).

(** [uv_l1_loss(uv_hat, uv)], the monitoring metric. *)
Definition uv_l1_loss (sh : Shape) (uv_hat uv : tensor5) : result matrix :=
  balanced_normalized_uv_loss sh uv_hat uv (L1Loss RNone).

(** ** Total variation smoothness loss *)

(** [torch.gradient(f, edge_order=1)] along one axis of size [n], unit
    spacing: one-sided differences at both ends, central differences
    inside.  The axis needs two entries at least. *)
Definition gradient1 (n : nat) (f : nat -> scalar) (i : nat) : scalar :=
  if i =? 0 then ssub (f 1) (f 0)
  else if i =? n - 1 then ssub (f (n - 1)) (f (n - 2))
  else sdiv (ssub (f (i + 1)) (f (i - 1))) (Num 2).

(** [torch.linalg.vector_norm(t, ord=2, dim=-1)] of the entries [l] of the
    last axis. *)
Definition vector_norm (l : list scalar) : scalar := ssqrt (ssum (map spow2 l)).

(** The entries of an (H, W) slice, row by row. *)
Definition pixels {A : Type} (sh : Shape) (f : nat -> nat -> A) : list A :=
  flat_map (fun y => map (fun x => f y x) (range (width sh))) (range (height sh)).

(** The first three statements of [total_variation]: the gradient along the
    two spatial axes, its norm, and the mean over the UV axis. *)
Definition gradient_magnitude (sh : Shape) (uv : tensor5) (b c y x : nat) : scalar :=
  let tv (u : nat) : scalar :=
    vector_norm [gradient1 (height sh) (fun i => uv b c u i x) y;
                 gradient1 (width sh) (fun j => uv b c u y j) x] in
  smean (map tv (range UV)).

(** [total_variation(uv, mask)]; the mask has the shape (B, C, H, W) of [sh]
    and boolean entries by its type, which is what the two assertions of the
    source ask for. *)
Definition total_variation (sh : Shape) (uv : tensor5) (mask : mask4) : result matrix :=
  if (height sh <? 2) || (width sh <? 2)
  then Err (RuntimeError "torch.gradient expected each dimension size to be at least edge_order+1")
  else
    let tv := gradient_magnitude sh uv in
    let tv := fun b c y x => if mask b c y x then tv b c y x else Num 0 in
    let tv := fun b c y x => spow2 (tv b c y x) in
    Ok (tabulate2 (batch sh) (classes sh) (fun b c =>
          sdiv (ssum (pixels sh (tv b c)))
               (of_nat (count_true (pixels sh (mask b c)) + 1)))).

(** ** Sparse landmark-at-UV loss *)

(** [a < b] and [a > b] on scalars: a comparison with NaN is false. *)
Definition slt (a b : scalar) : bool :=
  match a, b with
  | Num x, Num y => if Rlt_dec x y then true else false
  | _, _ => false
  end.

Definition sgt (a b : scalar) : bool := slt b a.

(** A point (x, y) or a value (u, v). *)
Definition point : Type := (scalar * scalar)%type.

(** A (B, N, 2) tensor of points. *)
Definition points : Type := nat -> nat -> point.

(** [(p < -1) | (p > 1)] followed by [.any(dim=-1)]. *)
Definition outside (p : point) : bool :=
  (slt (fst p) (Num (-1)) || sgt (fst p) (Num 1))
  || (slt (snd p) (Num (-1)) || sgt (snd p) (Num 1)).

(** [torch.tensor(l).cumsum(0)] *)
Fixpoint cumsum_from (acc : nat) (l : list nat) : list nat :=
  match l with
  | [] => []
  | x :: l' => (acc + x) :: cumsum_from (acc + x) l'
  end.

Definition cumsum (l : list nat) : list nat := cumsum_from 0 l.

(** The indices of the slice [start:stop] of an axis of size [n]; a slice is
    clipped to the axis. *)
Definition slice (start stop n : nat) : list nat :=
  seq start (Nat.min stop n - start).

(** [torch.zeros(B, C)] *)
Definition zeros (B C : nat) : matrix := repeat (repeat (Num 0) C) B.

(** [row[c] = v] *)
Fixpoint update (c : nat) (v : scalar) (row : list scalar) : list scalar :=
  match row, c with
  | [], _ => []
  | _ :: row', O => v :: row'
  | x :: row', S c' => x :: update c' v row'
  end.

(** [loss[:, c] = col] *)
Definition set_column (c : nat) (col : list scalar) (loss : matrix) : matrix :=
  map (fun rv => update c (snd rv) (fst rv)) (combine loss col).

(** [t[mask] = 0] on one row of values, [mask] telling the entries to zero. *)
Definition zero_where (mask : list bool) (vals : list point) : list point :=
  map (fun mv : bool * point => if fst mv then (Num 0, Num 0) else snd mv) (combine mask vals).

(** [loss_fn(hat, val).mean([1, 2])] for one batch element: the mean over
    the landmarks and the two coordinates. *)
Definition mean_loss (loss_fn : Loss) (hat val : list point) : scalar :=
  smean (flat_map (fun hv =>
           [elementwise loss_fn (fst (fst hv)) (fst (snd hv));
            elementwise loss_fn (snd (fst hv)) (snd (snd hv))])
         (combine hat val)).

Section LandmarkLoss.

(** [kornia.geometry.conversions.normalize_pixel_coordinates(p, H, W)] on
    one point: a function of the library, not of the repository. *)
Variable normalize_pixel_coordinates : point -> nat -> nat -> point.

(** [F.grid_sample(input, grid, align_corners=True, mode='bilinear')] for one
    (H, W) channel and one sample point: a function of the library. *)
Variable grid_sample : (nat -> nat -> scalar) -> nat -> nat -> point -> scalar.

Variable sh : Shape.
(** The predicted map, the landmarks (B, N, 2) with their number [N], the
    ground-truth values of every class, and the base loss. *)
Variable uv : tensor5.
Variable landmarks : points.
Variable N : nat.
Variable landmark_uv_values : list (list point).
Variable loss_fn : Loss.

Definition norm_lm : points :=
  fun b n => normalize_pixel_coordinates (landmarks b n) (height sh) (width sh).

Definition anatomy_idx : list nat :=
  cumsum (0 :: map (@length point) landmark_uv_values).

(** One turn of the loop [for c in range(C)], on the loss tensor so far. *)
Definition class_step (c : nat) (loss : matrix) : result matrix :=
  match nth_error anatomy_idx c, nth_error anatomy_idx (c + 1) with
  | Some start_idx, Some end_idx =>
    let idx := slice start_idx end_idx N in
    let sample_point := fun b : nat => map (norm_lm b) idx in
    let outside_mask := fun b : nat => map outside (sample_point b) in
    if forallb (fun b => forallb (fun o => o) (outside_mask b)) (range (batch sh))
    then Ok loss
    else
      let uv_values_hat := fun b : nat =>
        map (fun p => (grid_sample (uv b c 0) (height sh) (width sh) p,
                       grid_sample (uv b c 1) (height sh) (width sh) p))
            (sample_point b) in
      let uv_values := nth c landmark_uv_values [] in
      if length idx =? length uv_values
      then
        Ok (set_column c
              (map (fun b => mean_loss loss_fn
                               (zero_where (outside_mask b) (uv_values_hat b))
                               (zero_where (outside_mask b) uv_values))
                   (range (batch sh)))
              loss)
      else Err (IndexError "The shape of the mask does not match the shape of the indexed tensor")
  | _, _ => Err (IndexError "index out of bounds")
  end.

(** [landmark_uv_loss(uv, landmarks, landmark_uv_values, loss_fn)] *)
Definition landmark_uv_loss : result matrix :=
  _ <- assert (Reduction_eqb (reduction loss_fn) RNone)
         "loss_fn must have reduction set to none" ;;
  _ <- assert (negb (any5 sh (fun b c u y x => isnan (uv b c u y x))))
         "uv should not contain NaN values" ;;
  fold_left (fun acc c => loss <- acc ;; class_step c loss)
            (range (classes sh))
            (Ok (zeros (batch sh) (classes sh))).

(** *** The same loss, class by class

    The landmarks of class [c] are [class_size c] in number and start at
    [class_start c], the number of landmarks of the classes before it. *)
Definition class_size (c : nat) : nat := length (nth c landmark_uv_values []).

Definition class_start (c : nat) : nat :=
  list_sum (firstn c (map (@length point) landmark_uv_values)).

(** The [n]-th landmark of class [c] in image [b] is out of range. *)
Definition class_outside (b c n : nat) : bool :=
  outside (norm_lm b (class_start c + n)).

Definition class_all_outside (c : nat) : bool :=
  forallb (fun b => forallb (class_outside b c) (range (class_size c)))
          (range (batch sh)).

(** The per-element losses of class [c] in image [b]: prediction and target
    of a landmark out of range are both zero. *)
Definition class_errors (b c : nat) : list scalar :=
  flat_map (fun n =>
      let p := norm_lm b (class_start c + n) in
      let hat := if class_outside b c n then (Num 0, Num 0)
                 else (grid_sample (uv b c 0) (height sh) (width sh) p,
                       grid_sample (uv b c 1) (height sh) (width sh) p) in
      let val := if class_outside b c n then (Num 0, Num 0)
                 else nth n (nth c landmark_uv_values []) (NaN, NaN) in
      [elementwise loss_fn (fst hat) (fst val);
       elementwise loss_fn (snd hat) (snd val)])
    (range (class_size c)).

(** The mean over all the landmarks of the class and the two coordinates. *)
Definition class_mean (b c : nat) : scalar :=
  sdiv (ssum (class_errors b c)) (of_nat (2 * class_size c)).

(** The normalisation that the specification words for all four losses:
    the number of valid elements plus one. *)
Definition class_valid_elements (b c : nat) : nat :=
  2 * count_true (map (fun n => negb (class_outside b c n)) (range (class_size c))).

Definition class_mean_with_floor (b c : nat) : scalar :=
  sdiv (ssum (class_errors b c)) (of_nat (class_valid_elements b c + 1)).

Definition landmark_reference : matrix :=
  tabulate2 (batch sh) (classes sh) (fun b c =>
    if class_all_outside c then Num 0 else class_mean b c).

End LandmarkLoss.

(** *** The two library functions, after their documentation

    The theorems on [landmark_uv_loss] hold for every normalisation and every
    sampler; the concrete examples run the loss with these two. *)

(** [normalize_pixel_coordinates]: [2 / max(size - 1, eps) * p - 1] on each
    axis, the width for x and the height for y, with [eps = 1e-8]. *)
Definition kornia_normalize (p : point) (H W : nat) : point :=
  let factor (n : nat) : scalar :=
    sdiv (Num 2) (Num (Rmax (INR n - 1) (/ 100000000))) in
  (ssub (smul (factor W) (fst p)) (Num 1),
   ssub (smul (factor H) (snd p)) (Num 1)).

(** A pixel of the image, zero outside it ([padding_mode='zeros']). *)
Definition pixel_or_zero (img : nat -> nat -> scalar) (H W : nat) (iy ix : Z) : scalar :=
  if ((0 <=? ix) && (ix <? Z.of_nat W) && ((0 <=? iy) && (iy <? Z.of_nat H)))%Z
  then img (Z.to_nat iy) (Z.to_nat ix)
  else Num 0.

(** [grid_sample] with [mode='bilinear'] and [align_corners=True]: the point
    (x, y) of [-1, 1]^2 is the pixel position ((x + 1) / 2 * (W - 1),
    (y + 1) / 2 * (H - 1)), and the value is interpolated between the four
    pixels around it. *)
Definition bilinear_grid_sample (img : nat -> nat -> scalar) (H W : nat) (p : point)
    : scalar :=
  match p with
  | (Num x, Num y) =>
    let ix := ((x + 1) / 2 * (INR W - 1))%R in
    let iy := ((y + 1) / 2 * (INR H - 1))%R in
    let x0 := Int_part ix in
    let y0 := Int_part iy in
    let tx := (ix - IZR x0)%R in
    let ty := (iy - IZR y0)%R in
    ssum [smul (Num ((1 - tx) * (1 - ty))) (pixel_or_zero img H W y0 x0);
          smul (Num (tx * (1 - ty))) (pixel_or_zero img H W y0 (x0 + 1));
          smul (Num ((1 - tx) * ty)) (pixel_or_zero img H W (y0 + 1) x0);
          smul (Num (tx * ty)) (pixel_or_zero img H W (y0 + 1) (x0 + 1))]
  | _ => NaN
  end.

(** ** Loss composition of the epoch driver *)

(** The truth value of a Python number: zero is false, NaN is true. *)
Definition truthy (s : scalar) : bool :=
  match s with
  | NaN => true
  | Num r => if Req_dec_T r 0 then false else true
  end.

(** [t.mean()] of a (B, C) tensor. *)
Definition mean2 (m : matrix) : scalar := smean (concat m).

(** [seg.bool()] *)
Definition to_bool (seg : nat -> nat -> nat -> nat -> scalar) : mask4 :=
  fun b c y x => truthy (seg b c y x).

(** What one batch appends to the loss collector:
    [[loss, bce_loss, uv_loss, reg_loss, lm_loss]]. *)
Record BatchLosses : Type := mkBatchLosses {
  loss : scalar;
  bce_loss : scalar;
  uv_loss : scalar;
  reg_loss : scalar;
  lm_loss : scalar
}.

(** [value if weight else 0]: the value is computed, and may raise, only
    under a weight that is true. *)
Definition if_weight (weight : scalar) (value : result scalar) : result scalar :=
  if truthy weight then value else Ok (Num 0).

(** Lines 201 to 210 of [forward], given the outcome each of the four loss
    expressions has when it is evaluated.  The variable [uv_loss] is bound in
    the two branches of the [if] only. *)
Definition compose_losses (lambda_bce lambda_reg_uv lambda_tv : scalar)
    (supervision : string) (bce reg lm tv : result scalar) : result BatchLosses :=
  bce_loss <- if_weight lambda_bce bce ;;
  reg_loss <- if_weight lambda_reg_uv reg ;;
  lm_loss <- if_weight lambda_reg_uv lm ;;
  tv_loss <- if_weight lambda_tv tv ;;
  let uv_loss : option scalar :=
    if String.eqb supervision "dense"
    then Some (sadd (sdiv (smul lambda_reg_uv (sadd reg_loss lm_loss)) (Num 2))
                    (smul lambda_tv tv_loss))
    else if String.eqb supervision "sparse"
    then Some (sadd (smul lambda_reg_uv lm_loss) (smul lambda_tv tv_loss))
    else None in
  match uv_loss with
  | Some uv_loss =>
    Ok (mkBatchLosses (sadd (smul lambda_bce bce_loss) uv_loss)
                      bce_loss uv_loss reg_loss lm_loss)
  | None => Err (UnboundLocalError "uv_loss")
  end.

Section Forward.

Variable normalize_pixel_coordinates : point -> nat -> nat -> point.
Variable grid_sample : (nat -> nat -> scalar) -> nat -> nat -> point -> scalar.

(** The forward pass of [forward] on one batch: [bce] is the value of
    [F.binary_cross_entropy_with_logits(seg_hat, seg, pos_weight)], [uv_hat]
    the predicted map, [uv], [seg] and [lm] the batch. *)
Definition forward_batch (lambda_bce lambda_reg_uv lambda_tv : scalar)
    (supervision : string) (sh : Shape) (bce : scalar) (uv_hat uv : tensor5)
    (seg : nat -> nat -> nat -> nat -> scalar) (lm : points) (N : nat)
    (lm_uv_values : list (list point)) (uv_loss_fn : Loss) : result BatchLosses :=
  compose_losses lambda_bce lambda_reg_uv lambda_tv supervision
    (Ok bce)
    (m <- balanced_normalized_uv_loss sh uv_hat uv uv_loss_fn ;; Ok (mean2 m))
    (m <- landmark_uv_loss normalize_pixel_coordinates grid_sample sh uv_hat lm N
            lm_uv_values uv_loss_fn ;; Ok (mean2 m))
    (m <- total_variation sh uv_hat (to_bool seg) ;; Ok (mean2 m)).

(** What the loop of [forward] reads for one batch: the shape, the value of
    the segmentation loss expression, the map predicted by the model, and the
    map, the segmentation and the landmarks of the batch. *)
Record Batch : Type := mkBatch {
  batch_shape : Shape;
  batch_bce : scalar;
  batch_uv_hat : tensor5;
  batch_uv : tensor5;
  batch_seg : nat -> nat -> nat -> nat -> scalar;
  batch_lm : points;
  batch_N : nat
}.

(** [for ... in data_loader]: the first batch that raises ends the epoch. *)
Fixpoint forward_loop (step : Batch -> result BatchLosses) (batches : list Batch)
    : result (list BatchLosses) :=
  match batches with
  | [] => Ok []
  | x :: rest =>
    r <- step x ;;
    rs <- forward_loop step rest ;;
    Ok (r :: rs)
  end.

(** [forward]: the checks on the weights and the mode, then the loop; the
    result is what the batches append to the loss collector.  The optimiser
    steps and the logging are left out. *)
Definition forward (mode : string) (lambdas : list scalar) (supervision : string)
    (lm_uv_values : list (list point)) (uv_loss_fn : Loss) (data_loader : list Batch)
    : result (list BatchLosses) :=
  _ <- assert (existsb truthy lambdas)
         "At least one weighting for loss must be non-zero" ;;
  _ <- (if String.eqb mode "train" || String.eqb mode "test" || String.eqb mode "val"
        then Ok tt
        else Err (ValueError ("Unknown mode: " ++ mode))) ;;
  match lambdas with
  | [lambda_bce; lambda_reg_uv; lambda_tv] =>
    forward_loop (fun x =>
        forward_batch lambda_bce lambda_reg_uv lambda_tv supervision
          (batch_shape x) (batch_bce x) (batch_uv_hat x) (batch_uv x) (batch_seg x)
          (batch_lm x) (batch_N x) lm_uv_values uv_loss_fn)
      data_loader
  | _ => Err (ValueError "wrong number of values to unpack")
  end.

End Forward.

(** ** Heatmap synthesis *)

(** [torch.arange(n)] *)
Definition arange (n : nat) (i : nat) : Z := Z.of_nat i.

(** [torch.meshgrid(xs, ys, indexing='xy')]: two (H, W) tensors, the first
    holding [xs] along its columns, the second [ys] along its rows. *)
Definition meshgrid_xy (xs ys : nat -> Z) : (nat -> nat -> Z) * (nat -> nat -> Z) :=
  (fun i j => xs j, fun i j => ys i).

(** The heatmap of [forward_heatmap] and [forward_heatmap_and_seg] for an
    image of height [H] and width [W] and the landmarks [lm]. *)
Section Heatmap.

Variables (H W : nat) (std_pixel alpha : Z) (lm : points).

(** [torch.stack(torch.meshgrid(...), dim=-1).view(1, H * W, 2)] *)
Definition grid (k : nat) : Z * Z :=
  let mg := meshgrid_xy (arange W) (arange H) in
  (fst mg (k / W) (k mod W), snd mg (k / W) (k mod W)).

(** [alpha * torch.exp(-torch.sum(d.pow(2), dim=-1) / (2 * std_pixel ** 2))]
    with [d = grid.unsqueeze(1) - lm.unsqueeze(2)] *)
Definition gaussian (b n k : nat) : scalar :=
  let d := [ssub (of_Z (fst (grid k))) (fst (lm b n));
            ssub (of_Z (snd (grid k))) (snd (lm b n))] in
  smul (of_Z alpha)
       (sexp (sdiv (sneg (ssum (map spow2 d))) (of_Z (2 * std_pixel ^ 2)))).

(** [gaussian.view(B, N, H, W)] *)
Definition heatmap (b n y x : nat) : scalar := gaussian b n (y * W + x).

End Heatmap.

(** ** The computations as the specification words them *)

(** The dense regression loss of one class: the entries whose ground truth
    is NaN are set to zero in prediction and target, the base loss is taken
    entry by entry and summed over the coordinate and the two spatial axes,
    and the sum is divided by the number of valid entries plus one. *)
Definition entries {A : Type} (sh : Shape) (f : nat -> nat -> nat -> A) : list A :=
  flat_map (fun u => flat_map (fun y => map (fun x => f u y x) (range (width sh)))
                              (range (height sh))) (range UV).

Definition dense_uv_reference (sh : Shape) (uv_hat uv : tensor5)
    (elem : scalar -> scalar -> scalar) : matrix :=
  tabulate2 (batch sh) (classes sh) (fun b c =>
    let zeroed (t : tensor5) (u y x : nat) : scalar :=
      if isnan (uv b c u y x) then Num 0 else t b c u y x in
    sdiv (ssum (entries sh (fun u y x => elem (zeroed uv_hat u y x) (zeroed uv u y x))))
         (of_nat (count_true (entries sh (fun u y x => negb (isnan (uv b c u y x)))) + 1))).

(** The plain loss: no entry is set to zero. *)
Definition plain_uv_loss (sh : Shape) (uv_hat uv : tensor5)
    (elem : scalar -> scalar -> scalar) : matrix :=
  tabulate2 (batch sh) (classes sh) (fun b c =>
    sdiv (ssum (entries sh (fun u y x => elem (uv_hat b c u y x) (uv b c u y x))))
         (of_nat (UV * (height sh * width sh) + 1))).

(** The total variation of one class: first-order gradient along the two
    spatial axes, Euclidean norm over the gradient direction, mean over the
    two UV coordinates, square, zero outside the mask, sum over the pixels,
    division by the number of masked pixels plus one. *)
Definition gradient_norm (sh : Shape) (uv : tensor5) (b c u y x : nat) : scalar :=
  ssqrt (sadd (spow2 (gradient1 (height sh) (fun i => uv b c u i x) y))
              (spow2 (gradient1 (width sh) (fun j => uv b c u y j) x))).

Definition total_variation_reference (sh : Shape) (uv : tensor5) (mask : mask4) : matrix :=
  tabulate2 (batch sh) (classes sh) (fun b c =>
    let magnitude (y x : nat) : scalar :=
      sdiv (sadd (gradient_norm sh uv b c 0 y x) (gradient_norm sh uv b c 1 y x))
           (Num 2) in
    let squared (y x : nat) : scalar := spow2 (magnitude y x) in
    let masked (y x : nat) : scalar := if mask b c y x then squared y x else Num 0 in
    sdiv (ssum (pixels sh masked))
         (of_nat (count_true (pixels sh (mask b c)) + 1))).

(** The flat index of the entry (u, y, x). *)
Definition flat_index (sh : Shape) (u y x : nat) : nat :=
  u * (height sh * width sh) + y * width sh + x.

(** The ground truth holds a valid entry somewhere. *)
Definition some_valid (sh : Shape) (uv : tensor5) : Prop :=
  exists b c u y x,
    b < batch sh /\ c < classes sh /\ u < UV /\ y < height sh /\ x < width sh
    /\ isnan (uv b c u y x) = false.

(** The map holds a NaN somewhere. *)
Definition has_nan (sh : Shape) (uv : tensor5) : Prop :=
  exists b c u y x,
    b < batch sh /\ c < classes sh /\ u < UV /\ y < height sh /\ x < width sh
    /\ isnan (uv b c u y x) = true.

(** ** Concrete inputs *)

(** One image, one class, one pixel. *)
Definition one_pixel : Shape := mkShape 1 1 1 1.

Definition zero_map : tensor5 := fun _ _ _ _ _ => Num 0.
Definition one_map : tensor5 := fun _ _ _ _ _ => Num 1.
Definition nan_map : tensor5 := fun _ _ _ _ _ => NaN.

(** A ground truth whose U entry is valid and whose V entry is NaN, and a
    prediction that is zero on the U entry and NaN on the V entry. *)
Definition half_nan_map : tensor5 :=
  fun _ _ u _ _ => match u with O => Num 1 | _ => NaN end.
Definition half_hat_map : tensor5 :=
  fun _ _ u _ _ => match u with O => Num 0 | _ => NaN end.

(** One image, one class, two rows and two columns. *)
Definition two_by_two : Shape := mkShape 1 1 2 2.

(** A map that grows along the rows and the columns. *)
Definition ramp_map : tensor5 := fun _ _ _ y x => Num (INR y + 2 * INR x).

(** Landmarks that all sit on the pixel (1, 1). *)
Definition centre_landmark : points := fun _ _ => (Num 1, Num 1).

(** Two landmarks of one class on a 2 x 2 image: the first on the pixel
    (0, 0), the second at x = 5, off the image. *)
Definition inside_and_outside : points :=
  fun _ n => match n with O => (Num 0, Num 0) | _ => (Num 5, Num 0) end.

(** Landmarks that all sit at x = 5, off a 2 x 2 image. *)
Definition off_image : points := fun _ _ => (Num 5, Num 0).

(** One class with two landmarks, of ground-truth value (1, 1) each. *)
Definition two_values : list (list point) := [[(Num 1, Num 1); (Num 1, Num 1)]].

(** One class with one landmark whose ground-truth value is NaN. *)
Definition nan_value : list (list point) := [[(NaN, NaN)]].

(** ** Base losses: two properties *)

(** The loss of an entry against itself is zero, and the loss of two numbers
    is a number that is not negative; [L1Loss] and [MSELoss] have both. *)
Definition vanishes_on_equal (loss_fn : Loss) : Prop :=
  forall x, elementwise loss_fn (Num x) (Num x) = Num 0.

Definition nonnegative_loss (loss_fn : Loss) : Prop :=
  forall x y, exists r, elementwise loss_fn (Num x) (Num y) = Num r /\ (0 <= r)%R.

(** A scalar that is a number and is not negative. *)
Definition nonnegative (s : scalar) : Prop := exists r, s = Num r /\ (0 <= r)%R.

(** ** The metrics of a batch in [forward] *)

(** Lines 220 to 222 of [forward].  A monai [LossMetric] calls its loss
    function on the batch it is given, so [uv_l1(uv_hat, uv)] runs
    [uv_l1_loss] and [tv(uv_hat, seg.bool())] runs [total_variation] on
    every batch, whatever the weights are.  The Dice metric is left out. *)
Definition track_metrics (sh : Shape) (uv_hat uv : tensor5)
    (seg : nat -> nat -> nat -> nat -> scalar) : result (matrix * matrix) :=
  uv_l1 <- uv_l1_loss sh uv_hat uv ;;
  tv <- total_variation sh uv_hat (to_bool seg) ;;
  Ok (uv_l1, tv).

Section ForwardTracked.

Variable normalize_pixel_coordinates : point -> nat -> nat -> point.
Variable grid_sample : (nat -> nat -> scalar) -> nat -> nat -> point -> scalar.

(** The body of the loop of [forward] for one batch, lines 199 to 222: the
    loss composition, then the metrics. *)
Definition forward_batch_tracked (lambda_bce lambda_reg_uv lambda_tv : scalar)
    (supervision : string) (sh : Shape) (bce : scalar) (uv_hat uv : tensor5)
    (seg : nat -> nat -> nat -> nat -> scalar) (lm : points) (N : nat)
    (lm_uv_values : list (list point)) (uv_loss_fn : Loss) : result BatchLosses :=
  r <- forward_batch normalize_pixel_coordinates grid_sample
         lambda_bce lambda_reg_uv lambda_tv supervision sh bce uv_hat uv seg lm N
         lm_uv_values uv_loss_fn ;;
  _ <- track_metrics sh uv_hat uv seg ;;
  Ok r.

End ForwardTracked.

(** ** The heatmap drivers *)

(** A (B, N, H, W) stack of heatmaps. *)
Definition tensor4 : Type := nat -> nat -> nat -> nat -> scalar.

Definition entries4 {A : Type} (B N H W : nat) (f : nat -> nat -> nat -> nat -> A)
    : list A :=
  flat_map (fun b => flat_map (fun n => flat_map (fun y =>
    map (fun x => f b n y x) (range W)) (range H)) (range N)) (range B).

(** [F.mse_loss(input, target)] with its default mean reduction. *)
Definition mse_loss (B N H W : nat) (input target : tensor4) : scalar :=
  smean (entries4 B N H W (fun b n y x =>
           spow2 (ssub (input b n y x) (target b n y x)))).

(** [t.mean()] and [t[:, start:stop].mean()] on a (B, N) tensor. *)
Definition mean_all (B N : nat) (t : nat -> nat -> scalar) : scalar :=
  smean (flat_map (fun b => map (t b) (range N)) (range B)).

Definition mean_slice (B N : nat) (t : nat -> nat -> scalar) (start stop : nat)
    : scalar :=
  smean (flat_map (fun b => map (t b) (slice start stop N)) (range B)).

(** What a batch of [forward_heatmap] appends to its two collectors. *)
Record HeatmapLosses : Type := mkHeatmapLosses {
  heatmap_mse : scalar;
  tre_mean : scalar;
  tre_organ : list scalar
}.

Section HeatmapDrivers.

(** [JSRTDataset.PIXEL_RESOLUTION_MM], a constant of the dataset class. *)
Variable PIXEL_RESOLUTION_MM : scalar.

(** [torch.linalg.vector_norm(lm - lm_hat, ord=2, dim=-1) * PIXEL_RESOLUTION_MM] *)
Definition tre (lm lm_hat : points) (b n : nat) : scalar :=
  smul (vector_norm [ssub (fst (lm b n)) (fst (lm_hat b n));
                     ssub (snd (lm b n)) (snd (lm_hat b n))])
       PIXEL_RESOLUTION_MM.

(** The loss and the metrics of one batch of [forward_heatmap]:
    [heatmap_hat] is the output of the model, [lm_hat] the landmarks that
    [extract_kpts_from_heatmap] reads from it, and [organs] the index ranges
    of [get_anatomical_structure_index()]. *)
Definition forward_heatmap_batch (B N H W : nat) (std_pixel alpha : Z) (lm : points)
    (heatmap_hat : tensor4) (lm_hat : points) (organs : list (nat * nat))
    : HeatmapLosses :=
  let loss := mse_loss B N H W heatmap_hat (heatmap H W std_pixel alpha lm) in
  let tre := tre lm lm_hat in
  mkHeatmapLosses loss (mean_all B N tre)
    (map (fun r => mean_slice B N tre (fst r) (snd r)) organs).

End HeatmapDrivers.

(** [lambda_loss * seg_loss + (1 - lambda_loss) * heatmap_loss], the loss of
    [forward_heatmap_and_seg]. *)
Definition heatmap_and_seg_loss (lambda_loss seg_loss heatmap_loss : scalar) : scalar :=
  sadd (smul lambda_loss seg_loss) (smul (ssub (Num 1) lambda_loss) heatmap_loss).

(** ** The call of [forward_heatmap] in [train_heatmap.py] *)

Inductive call_outcome : Type :=
| Bound
| TypeError (msg : string).

(** The parameters of [forward_heatmap], each with whether it has a default. *)
Definition forward_heatmap_parameters : list (string * bool) :=
  [("mode", false); ("data_loader", false); ("epoch", false); ("model", false);
   ("optimizer", false); ("device", false); ("std_pixel", false); ("alpha", false);
   ("data_aug", true)]%string.

(** A call [f(a_1, ..., a_k, **keywords)]: the positional arguments bind the
    first [k] parameters and the keywords bind by name.  The call raises a
    type error when there are too many positional arguments, when a keyword
    names no parameter or one bound by position, and when a parameter
    without default stays unbound. *)
Definition bind_call (parameters : list (string * bool)) (positional : nat)
    (keywords : list string) : call_outcome :=
  let names := map fst parameters in
  let by_position := firstn positional names in
  let known (l : list string) (k : string) : bool := existsb (String.eqb k) l in
  if length parameters <? positional
  then TypeError "too many positional arguments"
  else
    match find (fun k => negb (known names k)) keywords with
    | Some k => TypeError ("unexpected keyword argument " ++ k)
    | None =>
      match find (known by_position) keywords with
      | Some k => TypeError ("multiple values for argument " ++ k)
      | None =>
        match find (fun p : string * bool =>
                      negb (snd p) && negb (known (by_position ++ keywords)%list (fst p)))
                   parameters with
        | Some p => TypeError ("missing required argument " ++ fst p)
        | None => Bound
        end
      end
    end.

(** [fwd_kwargs], the dictionary the script passes after its three
    positional arguments. *)
Definition fwd_kwargs : list string :=
  ["model"; "optimizer"; "device"; "data_aug"; "std_pixel"]%string.

(** ** More concrete inputs *)

(** One image, two classes, one pixel; the second class is absent. *)
Definition two_classes : Shape := mkShape 1 2 1 1.

Definition second_class_absent : tensor5 :=
  fun _ c _ _ _ => match c with O => Num 1 | _ => NaN end.

(** One class with two landmarks, of ground-truth value (0, 0) each. *)
Definition zero_values : list (list point) := [[(Num 0, Num 0); (Num 0, Num 0)]].

(** A sampler that answers NaN out of range. *)
Definition guarded_sample (img : nat -> nat -> scalar) (H W : nat) (p : point) : scalar :=
  if outside p then NaN else bilinear_grid_sample img H W p.

(** ** Basic facts on scalars and sums *)

Lemma sadd_0_l (s : scalar) : sadd (Num 0) s = s.
Proof. destruct s as [|r]; simpl; [reflexivity | f_equal; lra]. Qed.

Lemma sadd_assoc (a b c : scalar) : sadd a (sadd b c) = sadd (sadd a b) c.
Proof.
  destruct a, b, c; simpl; try reflexivity.
  f_equal; lra.
Qed.

Lemma ssum_cons (a : scalar) (l : list scalar) : ssum (a :: l) = sadd a (ssum l).
Proof. reflexivity. Qed.

Lemma ssum_app (l1 l2 : list scalar) : ssum (l1 ++ l2) = sadd (ssum l1) (ssum l2).
Proof.
  induction l1 as [|a l1 IH].
  - symmetry; apply sadd_0_l.
  - rewrite <- app_comm_cons, !ssum_cons, IH. apply sadd_assoc.
Qed.

Lemma ssum_zero (l : list scalar) :
  (forall s, In s l -> s = Num 0) -> ssum l = Num 0.
Proof.
  induction l as [|a l IH]; intros Hl.
  - reflexivity.
  - rewrite ssum_cons, IH by (intros s Hs; apply Hl; right; exact Hs).
    rewrite (Hl a) by (left; reflexivity). apply sadd_0_l.
Qed.

Lemma sdiv_Num (x y : R) : (y <> 0)%R -> sdiv (Num x) (Num y) = Num (x / y).
Proof.
  intros Hy. unfold sdiv. destruct (Req_dec_T y 0) as [E|_]; [contradiction | reflexivity].
Qed.

Lemma sdiv_count (r : R) (n : nat) :
  sdiv (Num r) (of_nat (n + 1)) = Num (r / INR (n + 1)).
Proof.
  unfold sdiv, of_nat.
  destruct (Req_dec_T (INR (n + 1)) 0) as [E|_]; [|reflexivity].
  exfalso. revert E. apply not_0_INR. lia.
Qed.

(** ** Row-major indexing *)

Lemma map_seq_from {A : Type} (f : nat -> A) (a len : nat) :
  map f (seq a len) = map (fun j => f (a + j)) (seq 0 len).
Proof.
  revert a f. induction len as [|len IH]; intros a f.
  - reflexivity.
  - simpl. rewrite Nat.add_0_r. f_equal.
    rewrite (IH (S a) f), (IH 1 (fun j => f (a + j))).
    apply map_ext. intros j. f_equal. lia.
Qed.

Lemma map_div_mod {A : Type} (g : nat -> nat -> A) (n m : nat) :
  map (fun k => g (k / m) (k mod m)) (seq 0 (n * m))
  = flat_map (fun i => map (g i) (seq 0 m)) (seq 0 n).
Proof.
  induction n as [|n IH].
  - reflexivity.
  - rewrite seq_S, flat_map_app. simpl flat_map. rewrite app_nil_r.
    replace (S n * m) with (n * m + m) by lia.
    rewrite seq_app, map_app, IH. f_equal.
    simpl. rewrite map_seq_from.
    apply map_ext_in. intros j Hj. apply in_seq in Hj.
    assert (Hm : m <> 0) by lia.
    replace (n * m + j) with (j + n * m) by lia.
    rewrite Nat.div_add by exact Hm. rewrite Nat.Div0.mod_add.
    rewrite Nat.div_small, Nat.mod_small by lia. reflexivity.
Qed.

Lemma mod_mod_mul (k h w : nat) : (k mod (h * w)) mod w = k mod w.
Proof.
  rewrite (Nat.mul_comm h w), Nat.Div0.mod_mul_r.
  rewrite (Nat.mul_comm w), Nat.Div0.mod_add.
  apply Nat.Div0.mod_mod.
Qed.

(** Reading a flattened (2, H, W) block entry by entry visits the
    coordinate, the rows and the columns in this order. *)
Lemma map_flat_entries {A : Type} (sh : Shape) (f : nat -> nat -> nat -> A) :
  map (fun k => f (k / (height sh * width sh))
                  ((k mod (height sh * width sh)) / width sh)
                  (k mod width sh))
      (range (flat_len sh))
  = entries sh f.
Proof.
  unfold range, flat_len, entries.
  set (h := height sh). set (w := width sh).
  pose (g := fun u r : nat => f u (r / w) (r mod w)).
  transitivity (flat_map (fun u => map (g u) (seq 0 (h * w))) (seq 0 UV)).
  - rewrite <- (map_div_mod g UV (h * w)).
    apply map_ext. intros k. unfold g. rewrite mod_mod_mul. reflexivity.
  - apply flat_map_ext. intros u. unfold g.
    apply (map_div_mod (f u) h w).
Qed.

Lemma flat_index_lt (sh : Shape) (u y x : nat) :
  u < UV -> y < height sh -> x < width sh -> flat_index sh u y x < flat_len sh.
Proof. unfold flat_index, flat_len, UV. intros. nia. Qed.

Lemma flatten2_flat_index (sh : Shape) (t : tensor5) (b c u y x : nat) :
  y < height sh -> x < width sh ->
  flatten2 sh t b c (flat_index sh u y x) = t b c u y x.
Proof.
  intros Hy Hx. unfold flatten2, flat_index.
  set (h := height sh) in *. set (w := width sh) in *.
  assert (Hr : y * w + x < h * w) by nia.
  assert (H1 : (u * (h * w) + y * w + x) / (h * w) = u).
  { symmetry. apply (Nat.div_unique _ _ _ (y * w + x)); [exact Hr | lia]. }
  assert (H2 : (u * (h * w) + y * w + x) mod (h * w) = y * w + x).
  { symmetry. apply (Nat.mod_unique _ _ u); [exact Hr | lia]. }
  assert (H3 : (y * w + x) / w = y).
  { symmetry. apply (Nat.div_unique _ _ _ x); [exact Hx | lia]. }
  assert (H4 : (u * (h * w) + y * w + x) mod w = x).
  { symmetry. apply (Nat.mod_unique _ _ (u * h + y)); [exact Hx | nia]. }
  rewrite H1, H2, H3, H4. reflexivity.
Qed.

Lemma in_entries {A : Type} (sh : Shape) (f : nat -> nat -> nat -> A) (a : A) :
  In a (entries sh f) <->
  exists u y x, u < UV /\ y < height sh /\ x < width sh /\ a = f u y x.
Proof.
  unfold entries, range. split.
  - intros Ha. apply in_flat_map in Ha. destruct Ha as (u & Hu & Ha).
    apply in_flat_map in Ha. destruct Ha as (y & Hy & Ha).
    apply in_map_iff in Ha. destruct Ha as (x & Ha & Hx).
    apply in_seq in Hu, Hy, Hx. exists u, y, x. repeat split; try lia. congruence.
  - intros (u & y & x & Hu & Hy & Hx & ->).
    apply in_flat_map. exists u. split; [apply in_seq; lia|].
    apply in_flat_map. exists y. split; [apply in_seq; lia|].
    apply in_map. apply in_seq. lia.
Qed.

Lemma length_entries {A : Type} (sh : Shape) (f : nat -> nat -> nat -> A) :
  length (entries sh f) = UV * (height sh * width sh).
Proof.
  rewrite <- (map_flat_entries sh f). unfold range, flat_len.
  rewrite length_map, length_seq. reflexivity.
Qed.

Lemma tabulate2_ext (B C : nat) (f g : nat -> nat -> scalar) :
  (forall b c, b < B -> c < C -> f b c = g b c) -> tabulate2 B C f = tabulate2 B C g.
Proof.
  intros E. unfold tabulate2, range.
  apply map_ext_in. intros b Hb. apply map_ext_in. intros c Hc.
  apply in_seq in Hb, Hc. apply E; lia.
Qed.

Lemma length_tabulate2 (B C : nat) (f : nat -> nat -> scalar) :
  length (tabulate2 B C f) = B /\ Forall (fun row => length row = C) (tabulate2 B C f).
Proof.
  unfold tabulate2, range. split.
  - rewrite length_map, length_seq. reflexivity.
  - apply Forall_map. apply Forall_forall. intros b _.
    rewrite length_map, length_seq. reflexivity.
Qed.

Lemma nth_tabulate2 (B C : nat) (f : nat -> nat -> scalar) (b c : nat) :
  b < B -> c < C -> nth c (nth b (tabulate2 B C f) []) NaN = f b c.
Proof.
  intros Hb Hc. unfold tabulate2, range.
  rewrite (nth_indep _ [] (map (fun c => f 0 c) (seq 0 C)))
    by (rewrite length_map, length_seq; exact Hb).
  rewrite (map_nth (fun b => map (fun c => f b c) (seq 0 C)) (seq 0 B) 0 b).
  rewrite seq_nth by exact Hb. simpl.
  rewrite (nth_indep _ NaN (f b 0)) by (rewrite length_map, length_seq; exact Hc).
  rewrite (map_nth (fun c => f b c) (seq 0 C) 0 c).
  rewrite seq_nth by exact Hc. reflexivity.
Qed.

Lemma flat_map_ext_in {A B : Type} (f g : A -> list B) (l : list A) :
  (forall a, In a l -> f a = g a) -> flat_map f l = flat_map g l.
Proof.
  induction l as [|a l IH]; intros E.
  - reflexivity.
  - simpl. rewrite (E a) by (left; reflexivity). f_equal.
    apply IH. intros a' Ha'. apply E. right. exact Ha'.
Qed.

Lemma entries_ext {A : Type} (sh : Shape) (f g : nat -> nat -> nat -> A) :
  (forall u y x, u < UV -> y < height sh -> x < width sh -> f u y x = g u y x) ->
  entries sh f = entries sh g.
Proof.
  intros E. unfold entries, range.
  apply flat_map_ext_in. intros u Hu. apply flat_map_ext_in. intros y Hy.
  apply map_ext_in. intros x Hx. apply in_seq in Hu, Hy, Hx. apply E; lia.
Qed.

Lemma count_true_all (l : list bool) :
  (forall v, In v l -> v = true) -> count_true l = length l.
Proof.
  unfold count_true. induction l as [|a l IH]; intros Hl.
  - reflexivity.
  - simpl. rewrite (Hl a) by (left; reflexivity). simpl. f_equal.
    apply IH. intros v Hv. apply Hl. right. exact Hv.
Qed.

Lemma count_true_none (l : list bool) :
  (forall v, In v l -> v = false) -> count_true l = 0.
Proof.
  unfold count_true. induction l as [|a l IH]; intros Hl.
  - reflexivity.
  - simpl. rewrite (Hl a) by (left; reflexivity).
    apply IH. intros v Hv. apply Hl. right. exact Hv.
Qed.

(** ** Dense UV regression loss *)

Lemma forallb_false {A : Type} (p : A -> bool) (l : list A) :
  forallb p l = false -> exists a, In a l /\ p a = false.
Proof.
  induction l as [|a l IH]; simpl; [discriminate|].
  destruct (p a) eqn:Pa; simpl.
  - intros Hl. destruct (IH Hl) as (a' & Ha' & Pa'). exists a'. auto.
  - intros _. exists a. auto.
Qed.

Lemma all5_isnan (sh : Shape) (uv : tensor5) :
  all5 sh (fun b c u y x => isnan (uv b c u y x)) = false <-> some_valid sh uv.
Proof.
  unfold all5, some_valid, range. split.
  - intros E.
    apply forallb_false in E. destruct E as (b & Hb & E).
    apply forallb_false in E. destruct E as (c & Hc & E).
    apply forallb_false in E. destruct E as (u & Hu & E).
    apply forallb_false in E. destruct E as (y & Hy & E).
    apply forallb_false in E. destruct E as (x & Hx & E).
    apply in_seq in Hb, Hc, Hu, Hy, Hx.
    exists b, c, u, y, x. repeat split; try lia. exact E.
  - intros (b & c & u & y & x & Hb & Hc & Hu & Hy & Hx & E).
    destruct (forallb _ _) eqn:F; [|reflexivity].
    rewrite forallb_forall in F. specialize (F b ltac:(apply in_seq; lia)).
    rewrite forallb_forall in F. specialize (F c ltac:(apply in_seq; lia)).
    rewrite forallb_forall in F. specialize (F u ltac:(apply in_seq; lia)).
    rewrite forallb_forall in F. specialize (F y ltac:(apply in_seq; lia)).
    rewrite forallb_forall in F. specialize (F x ltac:(apply in_seq; lia)).
    congruence.
Qed.

(** The two assertions passed, the function returns the reference value. *)
Lemma balanced_normalized_uv_loss_ok (sh : Shape) (uv_hat uv : tensor5) (loss_fn : Loss) :
  reduction loss_fn = RNone ->
  some_valid sh uv ->
  balanced_normalized_uv_loss sh uv_hat uv loss_fn
  = Ok (dense_uv_reference sh uv_hat uv (elementwise loss_fn)).
Proof.
  intros Hr Hv. unfold balanced_normalized_uv_loss.
  rewrite Hr. simpl. rewrite (proj2 (all5_isnan sh uv) Hv). simpl.
  f_equal. unfold dense_uv_reference. apply tabulate2_ext. intros b c _ _.
  f_equal.
  - unfold sum_last. f_equal.
    apply (map_flat_entries sh
             (fun u y x =>
                elementwise loss_fn
                  (if isnan (uv b c u y x) then Num 0 else uv_hat b c u y x)
                  (if isnan (uv b c u y x) then Num 0 else uv b c u y x))).
  - unfold count_last. do 3 f_equal.
    apply (map_flat_entries sh (fun u y x => negb (isnan (uv b c u y x)))).
Qed.

(** Without a valid entry the second assertion fails. *)
Lemma balanced_normalized_uv_loss_all_nan (sh : Shape) (uv_hat uv : tensor5) (loss_fn : Loss) :
  reduction loss_fn = RNone ->
  ~ some_valid sh uv ->
  balanced_normalized_uv_loss sh uv_hat uv loss_fn
  = Err (AssertionError "uv must contain some valid values").
Proof.
  intros Hr Hv. unfold balanced_normalized_uv_loss.
  rewrite Hr. simpl.
  destruct (all5 _ _) eqn:E; [reflexivity|].
  exfalso. apply Hv. apply all5_isnan. exact E.
Qed.

(** C1 (as amended).  For a base loss without reduction and a ground truth
    that holds at least one valid entry, [balanced_normalized_uv_loss]
    returns the reference value: the entries whose ground truth is NaN set to
    zero in prediction and target, the base loss taken entry by entry, summed
    over the coordinate and spatial axes and divided by the number of valid
    entries plus one; the result has the shape (batch, class). *)
Theorem dense_uv_loss_is_reference (sh : Shape) (uv_hat uv : tensor5) (loss_fn : Loss) :
  reduction loss_fn = RNone ->
  some_valid sh uv ->
  balanced_normalized_uv_loss sh uv_hat uv loss_fn
  = Ok (dense_uv_reference sh uv_hat uv (elementwise loss_fn))
  /\ length (dense_uv_reference sh uv_hat uv (elementwise loss_fn)) = batch sh
  /\ Forall (fun row => length row = classes sh)
            (dense_uv_reference sh uv_hat uv (elementwise loss_fn)).
Proof.
  intros Hr Hv. split.
  - apply balanced_normalized_uv_loss_ok; assumption.
  - apply length_tabulate2.
Qed.

Lemma dense_uv_loss_is_reference_witness :
  balanced_normalized_uv_loss one_pixel zero_map one_map (MSELoss RNone)
  = Ok (dense_uv_reference one_pixel zero_map one_map (elementwise (MSELoss RNone)))
  /\ length (dense_uv_reference one_pixel zero_map one_map (elementwise (MSELoss RNone))) = 1
  /\ Forall (fun row => length row = 1)
            (dense_uv_reference one_pixel zero_map one_map (elementwise (MSELoss RNone))).
Proof.
  apply (@dense_uv_loss_is_reference one_pixel zero_map one_map (MSELoss RNone)).
  - reflexivity.
  - exists 0, 0, 0, 0, 0. unfold UV. simpl. repeat split; lia.
Defined.

(** C1 as stated fails on a ground truth without any valid entry: the
    function raises on its second assertion, where the reference computation
    is the zero tensor. *)
Lemma dense_uv_loss_all_nan_raises :
  balanced_normalized_uv_loss one_pixel zero_map nan_map (MSELoss RNone)
  = Err (AssertionError "uv must contain some valid values")
  /\ dense_uv_reference one_pixel zero_map nan_map (elementwise (MSELoss RNone))
     = [[Num 0]].
Proof.
  split.
  - reflexivity.
  - unfold dense_uv_reference, tabulate2, entries, range. simpl.
    unfold of_nat, sdiv. simpl.
    destruct (Req_dec_T 1 0) as [E|_]; [lra|].
    do 2 f_equal. f_equal. field.
Qed.

(** C10.  Two predictions that agree wherever the ground truth is valid have
    the same dense regression loss, the same exception included: what a
    prediction holds where the ground truth is NaN has no influence. *)
Theorem dense_uv_loss_ignores_invalid_positions
    (sh : Shape) (uv_hat1 uv_hat2 uv : tensor5) (loss_fn : Loss) :
  (forall b c u y x,
      b < batch sh -> c < classes sh -> u < UV -> y < height sh -> x < width sh ->
      isnan (uv b c u y x) = false -> uv_hat1 b c u y x = uv_hat2 b c u y x) ->
  balanced_normalized_uv_loss sh uv_hat1 uv loss_fn
  = balanced_normalized_uv_loss sh uv_hat2 uv loss_fn.
Proof.
  intros Hagree.
  destruct (Reduction_eqb (reduction loss_fn) RNone) eqn:Hr.
  - destruct (all5 sh (fun b c u y x => isnan (uv b c u y x))) eqn:Hall.
    + unfold balanced_normalized_uv_loss. rewrite Hr. simpl. rewrite Hall. reflexivity.
    + assert (Hn : reduction loss_fn = RNone) by (destruct (reduction loss_fn); [reflexivity | discriminate Hr ..]).
      apply all5_isnan in Hall.
      rewrite !balanced_normalized_uv_loss_ok by assumption.
      f_equal. unfold dense_uv_reference. apply tabulate2_ext. intros b c Hb Hc.
      f_equal. f_equal. apply entries_ext. intros u y x Hu Hy Hx.
      destruct (isnan (uv b c u y x)) eqn:E; [reflexivity|].
      rewrite (Hagree b c u y x) by assumption. reflexivity.
  - unfold balanced_normalized_uv_loss. rewrite Hr. reflexivity.
Qed.

Lemma dense_uv_loss_ignores_invalid_positions_witness :
  balanced_normalized_uv_loss one_pixel zero_map half_nan_map (MSELoss RNone)
  = balanced_normalized_uv_loss one_pixel half_hat_map half_nan_map (MSELoss RNone).
Proof.
  apply (@dense_uv_loss_ignores_invalid_positions one_pixel zero_map half_hat_map
           half_nan_map (MSELoss RNone)).
  intros b c u y x _ _ Hu _ _. unfold half_nan_map, half_hat_map, zero_map.
  destruct u as [|u]; simpl; [reflexivity | discriminate].
Defined.

(** C8.  On a ground truth without NaN (and with at least one entry, for a
    base loss without reduction) the masking step changes no entry of
    prediction or target, and the dense regression loss is the plain loss of
    the unmodified inputs: the base loss summed over the entries of each
    class and divided by their number plus one. *)
Theorem dense_uv_loss_without_nan (sh : Shape) (uv_hat uv : tensor5) (loss_fn : Loss) :
  reduction loss_fn = RNone ->
  0 < batch sh -> 0 < classes sh -> 0 < height sh -> 0 < width sh ->
  (forall b c u y x,
      b < batch sh -> c < classes sh -> u < UV -> y < height sh -> x < width sh ->
      isnan (uv b c u y x) = false) ->
  balanced_normalized_uv_loss sh uv_hat uv loss_fn
  = Ok (plain_uv_loss sh uv_hat uv (elementwise loss_fn))
  /\ forall (t : tensor5) b c k,
       b < batch sh -> c < classes sh -> k < flat_len sh ->
       where_scalar (fun b c k => isnan (flatten2 sh uv b c k)) (Num 0)
                    (flatten2 sh t) b c k
       = flatten2 sh t b c k.
Proof.
  intros Hr HB HC HH HW Hv. split.
  - rewrite balanced_normalized_uv_loss_ok.
    + f_equal. unfold dense_uv_reference, plain_uv_loss.
      apply tabulate2_ext. intros b c Hb Hc. f_equal.
      * f_equal. apply entries_ext. intros u y x Hu Hy Hx.
        rewrite (Hv b c u y x) by assumption. reflexivity.
      * do 2 f_equal. rewrite count_true_all.
        -- apply length_entries.
        -- intros v Hin. apply in_entries in Hin.
           destruct Hin as (u & y & x & Hu & Hy & Hx & ->).
           rewrite (Hv b c u y x) by assumption. reflexivity.
    + exact Hr.
    + exists 0, 0, 0, 0, 0. unfold UV. repeat split; try lia. apply Hv; unfold UV; lia.
  - intros t b c k Hb Hc Hk. unfold where_scalar.
    destruct (isnan (flatten2 sh uv b c k)) eqn:E; [|reflexivity].
    exfalso. revert E. unfold flatten2.
    set (h := height sh) in *. set (w := width sh) in *.
    unfold flat_len in Hk. fold h w in Hk.
    assert (Hhw : h * w <> 0) by lia.
    rewrite Hv; [discriminate | assumption | assumption | | | ].
    + apply Nat.Div0.div_lt_upper_bound. unfold UV in *. lia.
    + apply Nat.Div0.div_lt_upper_bound.
      pose proof (Nat.mod_upper_bound k (h * w) Hhw). lia.
    + apply Nat.mod_upper_bound. lia.
Qed.

Lemma dense_uv_loss_without_nan_witness :
  balanced_normalized_uv_loss one_pixel zero_map one_map (L1Loss RNone)
  = Ok (plain_uv_loss one_pixel zero_map one_map (elementwise (L1Loss RNone)))
  /\ forall (t : tensor5) b c k,
       b < 1 -> c < 1 -> k < flat_len one_pixel ->
       where_scalar (fun b c k => isnan (flatten2 one_pixel one_map b c k)) (Num 0)
                    (flatten2 one_pixel t) b c k
       = flatten2 one_pixel t b c k.
Proof.
  apply (@dense_uv_loss_without_nan one_pixel zero_map one_map (L1Loss RNone));
    simpl; try lia; reflexivity.
Defined.

(** ** Total variation *)

Lemma pixels_ext {A : Type} (sh : Shape) (f g : nat -> nat -> A) :
  (forall y x, y < height sh -> x < width sh -> f y x = g y x) ->
  pixels sh f = pixels sh g.
Proof.
  intros E. unfold pixels, range.
  apply flat_map_ext_in. intros y Hy. apply map_ext_in. intros x Hx.
  apply in_seq in Hy, Hx. apply E; lia.
Qed.

Lemma in_pixels {A : Type} (sh : Shape) (f : nat -> nat -> A) (a : A) :
  In a (pixels sh f) -> exists y x, y < height sh /\ x < width sh /\ a = f y x.
Proof.
  unfold pixels, range. intros Ha.
  apply in_flat_map in Ha. destruct Ha as (y & Hy & Ha).
  apply in_map_iff in Ha. destruct Ha as (x & Ha & Hx).
  apply in_seq in Hy, Hx. exists y, x. repeat split; try lia. congruence.
Qed.

Lemma spow2_0 : spow2 (Num 0) = Num 0.
Proof. simpl. f_equal. lra. Qed.

Lemma sadd_0_r (s : scalar) : sadd s (Num 0) = s.
Proof. destruct s as [|r]; simpl; [reflexivity | f_equal; lra]. Qed.

Lemma gradient_magnitude_eq (sh : Shape) (uv : tensor5) (b c y x : nat) :
  gradient_magnitude sh uv b c y x
  = sdiv (sadd (gradient_norm sh uv b c 0 y x) (gradient_norm sh uv b c 1 y x))
         (Num 2).
Proof.
  unfold gradient_magnitude, smean, vector_norm, gradient_norm, range, UV, of_nat.
  cbn [seq map length ssum fold_right].
  rewrite !sadd_0_r. reflexivity.
Qed.

Lemma total_variation_ok (sh : Shape) (uv : tensor5) (mask : mask4) :
  2 <= height sh -> 2 <= width sh ->
  total_variation sh uv mask = Ok (total_variation_reference sh uv mask).
Proof.
  intros HH HW. unfold total_variation.
  destruct (Nat.ltb_spec (height sh) 2) as [F|_]; [lia|].
  destruct (Nat.ltb_spec (width sh) 2) as [F|_]; [lia|].
  simpl. f_equal. unfold total_variation_reference.
  apply tabulate2_ext. intros b c _ _. f_equal. f_equal.
  apply pixels_ext. intros y x _ _.
  destruct (mask b c y x); [|apply spow2_0].
  rewrite gradient_magnitude_eq. reflexivity.
Qed.

Lemma total_variation_reference_empty_mask (sh : Shape) (uv : tensor5) (mask : mask4)
    (b c : nat) :
  b < batch sh -> c < classes sh ->
  (forall y x, y < height sh -> x < width sh -> mask b c y x = false) ->
  nth c (nth b (total_variation_reference sh uv mask) []) NaN = Num 0.
Proof.
  intros Hb Hc Hm. unfold total_variation_reference.
  rewrite nth_tabulate2 by assumption.
  rewrite ssum_zero, count_true_none.
  - rewrite sdiv_count. f_equal. unfold Rdiv. apply Rmult_0_l.
  - intros v Hv. apply in_pixels in Hv. destruct Hv as (y & x & Hy & Hx & ->).
    apply Hm; assumption.
  - intros s Hs. apply in_pixels in Hs. destruct Hs as (y & x & Hy & Hx & ->).
    rewrite Hm by assumption. reflexivity.
Qed.

(** C4.  On a map with two rows and two columns at least (what
    [torch.gradient] asks for), [total_variation] returns the reference
    value: first-order gradient along the two spatial axes, norm over the
    gradient direction, mean over the UV axis, square, zero outside the
    mask, sum over the pixels, division by the number of masked pixels plus
    one.  For a class whose mask has no true pixel the result is exactly
    zero. *)
Theorem total_variation_is_reference (sh : Shape) (uv : tensor5) (mask : mask4) :
  2 <= height sh -> 2 <= width sh ->
  total_variation sh uv mask = Ok (total_variation_reference sh uv mask)
  /\ forall b c,
       b < batch sh -> c < classes sh ->
       (forall y x, y < height sh -> x < width sh -> mask b c y x = false) ->
       exists tv, total_variation sh uv mask = Ok tv
                  /\ nth c (nth b tv []) NaN = Num 0.
Proof.
  intros HH HW. split.
  - apply total_variation_ok; assumption.
  - intros b c Hb Hc Hm. exists (total_variation_reference sh uv mask). split.
    + apply total_variation_ok; assumption.
    + apply total_variation_reference_empty_mask; assumption.
Qed.

Lemma total_variation_is_reference_witness :
  total_variation two_by_two ramp_map (fun _ _ _ _ => false)
  = Ok (total_variation_reference two_by_two ramp_map (fun _ _ _ _ => false))
  /\ exists tv, total_variation two_by_two ramp_map (fun _ _ _ _ => false) = Ok tv
                /\ nth 0 (nth 0 tv []) NaN = Num 0.
Proof.
  destruct (@total_variation_is_reference two_by_two ramp_map (fun _ _ _ _ => false))
    as [Href Hzero]; [simpl; lia | simpl; lia |].
  split; [exact Href|].
  apply Hzero; [simpl; lia | simpl; lia | reflexivity].
Defined.

(** ** Two evaluations *)

(** Prediction 0 against ground truth 1 on one pixel, squared error: the two
    entries sum to 2, over 2 valid entries plus one. *)
Example dense_uv_loss_example :
  balanced_normalized_uv_loss one_pixel zero_map one_map (MSELoss RNone)
  = Ok [[Num (2 / 3)]].
Proof.
  rewrite balanced_normalized_uv_loss_ok;
    [ | reflexivity | exists 0, 0, 0, 0, 0; unfold UV; simpl; repeat split; lia ].
  f_equal. unfold dense_uv_reference, tabulate2, entries, range.
  cbn [batch classes height width one_pixel UV seq map flat_map app isnan one_map
       zero_map negb count_true filter length Nat.add].
  cbv beta iota delta [elementwise MSELoss spow2 ssub smul lift2 ssum fold_right sadd
                       of_nat zero_map one_map isnan].
  rewrite sdiv_Num by (simpl; lra).
  do 3 f_equal. simpl. field.
Qed.

Lemma gradient_norm_ramp (b c u y x : nat) :
  y < 2 -> x < 2 -> gradient_norm two_by_two ramp_map b c u y x = Num (sqrt 5).
Proof.
  intros Hy Hx. unfold gradient_norm, ramp_map. cbn [height width two_by_two].
  assert (Gy : gradient1 2 (fun i => Num (INR i + 2 * INR x)) y = Num 1).
  { unfold gradient1. destruct y as [|[|y]]; [| |lia]; simpl; f_equal; lra. }
  assert (Gx : gradient1 2 (fun j => Num (INR y + 2 * INR j)) x = Num 2).
  { unfold gradient1. destruct x as [|[|x]]; [| |lia]; simpl; f_equal; lra. }
  rewrite Gy, Gx. cbv beta iota delta [spow2 smul sadd lift2 ssqrt].
  destruct (Rlt_dec (1 * 1 + 2 * 2) 0); [lra|].
  do 2 f_equal. lra.
Qed.

(** The map y + 2 x on a 2 x 2 image, every pixel in the mask: the gradient
    is (1, 2) everywhere, its squared norm 5, and the four pixels sum to 20,
    over 4 masked pixels plus one. *)
Example total_variation_example :
  total_variation two_by_two ramp_map (fun _ _ _ _ => true) = Ok [[Num 4]].
Proof.
  rewrite total_variation_ok by (simpl; lia).
  f_equal. unfold total_variation_reference, tabulate2, pixels, range.
  cbn [batch classes height width two_by_two seq map flat_map app
       count_true filter length Nat.add].
  rewrite !gradient_norm_ramp by lia.
  cbv beta iota delta [sadd lift2].
  rewrite sdiv_Num by lra.
  cbv beta iota delta [spow2 smul lift2 ssum fold_right sadd of_nat].
  rewrite sdiv_Num by (simpl; lra).
  do 3 f_equal.
  replace ((sqrt 5 + sqrt 5) / 2)%R with (sqrt 5) by lra.
  rewrite sqrt_sqrt by lra. simpl. field.
Qed.

(** ** Heatmap synthesis *)

Lemma grid_at (H W y x : nat) :
  x < W -> grid H W (y * W + x) = (Z.of_nat x, Z.of_nat y).
Proof.
  intros Hx. unfold grid, meshgrid_xy, arange. simpl.
  assert (E1 : (y * W + x) / W = y).
  { symmetry. apply (Nat.div_unique _ _ _ x); [exact Hx | lia]. }
  assert (E2 : (y * W + x) mod W = x).
  { symmetry. apply (Nat.mod_unique _ _ y); [exact Hx | lia]. }
  rewrite E1, E2. reflexivity.
Qed.

Lemma IZR_denominator (std_pixel : Z) :
  std_pixel <> 0%Z -> (IZR (2 * std_pixel ^ 2) <> 0)%R.
Proof.
  intros Hs E. apply eq_IZR_R0 in E. rewrite Z.pow_2_r in E. nia.
Qed.

Lemma heatmap_value (H W : nat) (std_pixel alpha : Z) (lm : points)
    (b n y x : nat) (lx ly : R) :
  std_pixel <> 0%Z -> x < W -> lm b n = (Num lx, Num ly) ->
  heatmap H W std_pixel alpha lm b n y x
  = Num (IZR alpha
         * exp (- ((IZR (Z.of_nat x) - lx) ^ 2 + (IZR (Z.of_nat y) - ly) ^ 2)
                / (2 * IZR std_pixel ^ 2))).
Proof.
  intros Hs Hx Hlm. unfold heatmap, gaussian.
  rewrite grid_at by exact Hx. rewrite Hlm. unfold of_Z.
  cbv beta iota delta [fst snd map ssum fold_right spow2 ssub sadd smul sneg lift1 lift2].
  rewrite sdiv_Num by (apply IZR_denominator; exact Hs).
  cbv beta iota delta [sexp lift1]. do 3 f_equal.
  rewrite mult_IZR, Z.pow_2_r, mult_IZR.
  assert (Hr : (IZR std_pixel <> 0)%R) by (apply not_0_IZR; exact Hs).
  field. exact Hr.
Qed.

(** C9.  The channel of a landmark at (lx, ly) holds at every pixel (x, y)
    the value alpha * exp(-((x - lx)^2 + (y - ly)^2) / (2 * std_pixel^2));
    with alpha = 1 and std_pixel = 1 and the landmark on the pixel (px, py),
    that pixel holds 1 and every pixel at distance one holds exp(-1/2). *)
Theorem heatmap_is_gaussian (H W : nat) (std_pixel alpha : Z) (lm : points)
    (b n : nat) (lx ly : R) :
  std_pixel <> 0%Z -> lm b n = (Num lx, Num ly) ->
  (forall y x, y < H -> x < W ->
     heatmap H W std_pixel alpha lm b n y x
     = Num (IZR alpha
            * exp (- ((IZR (Z.of_nat x) - lx) ^ 2 + (IZR (Z.of_nat y) - ly) ^ 2)
                   / (2 * IZR std_pixel ^ 2))))
  /\ (forall px py, py < H -> px < W ->
       lx = IZR (Z.of_nat px) -> ly = IZR (Z.of_nat py) ->
       heatmap H W 1 1 lm b n py px = Num 1
       /\ forall y x, y < H -> x < W ->
            ((Z.of_nat x - Z.of_nat px) ^ 2 + (Z.of_nat y - Z.of_nat py) ^ 2 = 1)%Z ->
            heatmap H W 1 1 lm b n y x = Num (exp (- (1 / 2)))).
Proof.
  intros Hs Hlm.
  assert (H1 : forall y x, x < W ->
               heatmap H W 1 1 lm b n y x
               = Num (IZR 1 * exp (- ((IZR (Z.of_nat x) - lx) ^ 2
                                       + (IZR (Z.of_nat y) - ly) ^ 2)
                                     / (2 * IZR 1 ^ 2))))
    by (intros y x Hx; apply heatmap_value; [discriminate | exact Hx | exact Hlm]).
  split.
  - intros y x _ Hx. apply heatmap_value; assumption.
  - intros px py _ Hpx -> ->. split.
    + rewrite H1 by exact Hpx. f_equal.
      replace (- _ / _)%R with 0%R by field.
      rewrite exp_0. lra.
    + intros y x _ Hx Hd. rewrite H1 by exact Hx. f_equal.
      rewrite Rmult_1_l. f_equal.
      apply (f_equal IZR) in Hd.
      rewrite plus_IZR, !Z.pow_2_r, !mult_IZR, !minus_IZR in Hd.
      simpl. lra.
Qed.

Lemma heatmap_is_gaussian_witness :
  heatmap 3 3 1 1 centre_landmark 0 0 1 1 = Num 1
  /\ heatmap 3 3 1 1 centre_landmark 0 0 1 2 = Num (exp (- (1 / 2)))
  /\ heatmap 3 3 1 1 centre_landmark 0 0 0 1 = Num (exp (- (1 / 2))).
Proof.
  destruct (@heatmap_is_gaussian 3 3 1 1 centre_landmark 0 0 1 1
              ltac:(discriminate) eq_refl) as [_ Hpeak].
  destruct (Hpeak 1 1 ltac:(lia) ltac:(lia) eq_refl eq_refl) as [Hone Hnear].
  split; [exact Hone | split].
  - apply Hnear; [lia | lia | reflexivity].
  - apply Hnear; [lia | lia | reflexivity].
Defined.

(** ** Loss composition *)

Lemma truthy_Num (w : R) : truthy (Num w) = if Req_dec_T w 0 then false else true.
Proof. reflexivity. Qed.

Lemma if_weight_Num (w v : R) :
  exists v', if_weight (Num w) (Ok (Num v)) = Ok (Num v') /\ (w * v' = w * v)%R.
Proof.
  unfold if_weight. rewrite truthy_Num.
  destruct (Req_dec_T w 0) as [E|_].
  - exists 0%R. split; [reflexivity | subst w; lra].
  - exists v. split; reflexivity.
Qed.

Lemma omitted_term (u : scalar) : sadd (smul (Num 0) (Num 0)) u = u.
Proof. destruct u as [|u]; simpl; [reflexivity | f_equal; lra]. Qed.

(** C2.  For real weights and real per-loss values the composed objective
    follows the formulas of the two modes, and the total loss adds the
    weighted segmentation loss; under a zero segmentation weight the
    segmentation loss is not evaluated and the total loss is the combined UV
    loss. *)
Theorem loss_composition_formulas (w_seg w_uv w_tv seg dense sparse tv : R) :
  (exists r,
      compose_losses (Num w_seg) (Num w_uv) (Num w_tv) "dense"
        (Ok (Num seg)) (Ok (Num dense)) (Ok (Num sparse)) (Ok (Num tv)) = Ok r
      /\ uv_loss r = Num (w_uv * (dense + sparse) / 2 + w_tv * tv)
      /\ loss r = Num (w_seg * seg + (w_uv * (dense + sparse) / 2 + w_tv * tv)))
  /\ (exists r,
      compose_losses (Num w_seg) (Num w_uv) (Num w_tv) "sparse"
        (Ok (Num seg)) (Ok (Num dense)) (Ok (Num sparse)) (Ok (Num tv)) = Ok r
      /\ uv_loss r = Num (w_uv * sparse + w_tv * tv)
      /\ loss r = Num (w_seg * seg + (w_uv * sparse + w_tv * tv)))
  /\ (forall supervision bce r,
      compose_losses (Num 0) (Num w_uv) (Num w_tv) supervision
        bce (Ok (Num dense)) (Ok (Num sparse)) (Ok (Num tv)) = Ok r ->
      bce_loss r = Num 0 /\ loss r = uv_loss r).
Proof.
  destruct (if_weight_Num w_seg seg) as (g & Eg & Hg).
  destruct (if_weight_Num w_uv dense) as (d & Ed & Hd).
  destruct (if_weight_Num w_uv sparse) as (s & Es & Hs).
  destruct (if_weight_Num w_tv tv) as (t & Et & Ht).
  assert (H2 : (2 <> 0)%R) by lra.
  split; [|split].
  - unfold compose_losses. rewrite Eg, Ed, Es, Et.
    cbv beta iota delta [bind String.eqb Ascii.eqb Bool.eqb smul sadd lift2].
    rewrite sdiv_Num by exact H2.
    eexists. split; [reflexivity|]. cbv beta iota delta [uv_loss loss].
    split; f_equal; lra.
  - unfold compose_losses. rewrite Eg, Ed, Es, Et.
    cbv beta iota delta [bind String.eqb Ascii.eqb Bool.eqb smul sadd lift2].
    eexists. split; [reflexivity|]. cbv beta iota delta [uv_loss loss].
    split; f_equal; lra.
  - intros supervision bce r. unfold compose_losses.
    assert (E0 : if_weight (Num 0) bce = Ok (Num 0)).
    { unfold if_weight. rewrite truthy_Num.
      destruct (Req_dec_T 0 0) as [_|F]; [reflexivity | contradiction]. }
    rewrite E0, Ed, Es, Et.
    cbv beta iota delta [bind].
    destruct (String.eqb supervision "dense");
      [|destruct (String.eqb supervision "sparse"); [|discriminate]].
    + intros E. injection E as <-. split; [reflexivity|].
      cbv beta iota delta [loss uv_loss]. rewrite ?sdiv_Num by exact H2.
      exact (omitted_term _).
    + intros E. injection E as <-. split; [reflexivity|].
      cbv beta iota delta [loss uv_loss]. f_equal. lra.
Qed.

(** C7.  Under a supervision mode other than 'dense' and 'sparse' the loss
    composition raises: no branch binds [uv_loss], and the total loss reads
    it.  When the four loss expressions evaluate, the exception is the
    unbound variable; the forward pass on a batch raises whatever its inputs
    are, and so does the epoch on a loader with a batch. *)
Theorem unknown_supervision_raises (supervision : string) :
  supervision <> "dense"%string -> supervision <> "sparse"%string ->
  (forall lambda_bce lambda_reg_uv lambda_tv bce reg lm tv,
      exists e, compose_losses lambda_bce lambda_reg_uv lambda_tv supervision
                  bce reg lm tv = Err e)
  /\ (forall lambda_bce lambda_reg_uv lambda_tv bce reg lm tv,
      compose_losses lambda_bce lambda_reg_uv lambda_tv supervision
        (Ok bce) (Ok reg) (Ok lm) (Ok tv) = Err (UnboundLocalError "uv_loss"))
  /\ (forall normalize_pixel_coordinates grid_sample mode lambdas lm_uv_values
             uv_loss_fn first_batch data_loader,
      exists e, forward normalize_pixel_coordinates grid_sample mode lambdas
                  supervision lm_uv_values uv_loss_fn (first_batch :: data_loader)
                = Err e).
Proof.
  intros Hd Hs.
  apply String.eqb_neq in Hd, Hs.
  assert (A : forall lambda_bce lambda_reg_uv lambda_tv bce reg lm tv,
             exists e, compose_losses lambda_bce lambda_reg_uv lambda_tv supervision
                         bce reg lm tv = Err e).
  { intros. unfold compose_losses. rewrite Hd, Hs.
    destruct (if_weight lambda_bce bce); [|eexists; reflexivity].
    destruct (if_weight lambda_reg_uv reg); [|eexists; reflexivity].
    destruct (if_weight lambda_reg_uv lm); [|eexists; reflexivity].
    destruct (if_weight lambda_tv tv); eexists; reflexivity. }
  split; [exact A | split].
  - intros. unfold compose_losses, if_weight. rewrite Hd, Hs.
    destruct (truthy lambda_bce), (truthy lambda_reg_uv), (truthy lambda_tv); reflexivity.
  - intros. unfold forward.
    destruct (assert _ _); [|eexists; reflexivity].
    destruct (_ || _); [|eexists; reflexivity].
    cbn [bind].
    destruct lambdas as [|l1 [|l2 [|l3 [|l4 ls]]]]; try (eexists; reflexivity).
    cbn [forward_loop]. unfold forward_batch.
    match goal with |- context [compose_losses ?a ?b ?c ?d ?e ?f ?g ?h] =>
      destruct (A a b c e f g h) as (e0 & ->) end.
    eexists. reflexivity.
Qed.

Lemma unknown_supervision_raises_witness :
  (forall lambda_bce lambda_reg_uv lambda_tv bce reg lm tv,
      compose_losses lambda_bce lambda_reg_uv lambda_tv "both"
        (Ok bce) (Ok reg) (Ok lm) (Ok tv) = Err (UnboundLocalError "uv_loss"))
  /\ (forall normalize_pixel_coordinates grid_sample mode lambdas lm_uv_values
             uv_loss_fn first_batch data_loader,
      exists e, forward normalize_pixel_coordinates grid_sample mode lambdas
                  "both" lm_uv_values uv_loss_fn (first_batch :: data_loader)
                = Err e).
Proof.
  apply (@unknown_supervision_raises "both"); discriminate.
Defined.

(** All weights zero: the epoch fails its first assertion before any batch
    is read. *)
Lemma forward_zero_weights
    (normalize_pixel_coordinates : point -> nat -> nat -> point)
    (grid_sample : (nat -> nat -> scalar) -> nat -> nat -> point -> scalar)
    (mode supervision : string) (lm_uv_values : list (list point))
    (uv_loss_fn : Loss) (data_loader : list Batch) :
  forward normalize_pixel_coordinates grid_sample mode [Num 0; Num 0; Num 0]
    supervision lm_uv_values uv_loss_fn data_loader
  = Err (AssertionError "At least one weighting for loss must be non-zero").
Proof.
  unfold forward. cbn [existsb]. rewrite truthy_Num.
  destruct (Req_dec_T 0 0) as [_|F]; [reflexivity | contradiction].
Qed.

(** ** Lists built over an index list *)

Lemma combine_map {A B I : Type} (a : I -> A) (b : I -> B) (l : list I) :
  combine (map a l) (map b l) = map (fun i => (a i, b i)) l.
Proof. induction l as [|i l IH]; simpl; [reflexivity | f_equal; exact IH]. Qed.

Lemma flat_map_map {A B I : Type} (F : A -> list B) (g : I -> A) (l : list I) :
  flat_map F (map g l) = flat_map (fun i => F (g i)) l.
Proof. induction l as [|i l IH]; simpl; [reflexivity | f_equal; exact IH]. Qed.

Lemma forallb_map {A I : Type} (p : A -> bool) (g : I -> A) (l : list I) :
  forallb p (map g l) = forallb (fun i => p (g i)) l.
Proof. induction l as [|i l IH]; simpl; [reflexivity | f_equal; exact IH]. Qed.

Lemma zero_where_map {I : Type} (m : I -> bool) (h : I -> point) (l : list I) :
  zero_where (map m l) (map h l)
  = map (fun i => if m i then (Num 0, Num 0) else h i) l.
Proof.
  unfold zero_where. rewrite combine_map, map_map. reflexivity.
Qed.

Lemma list_as_map_nth {A : Type} (d : A) (l : list A) :
  l = map (fun n => nth n l d) (seq 0 (length l)).
Proof.
  induction l as [|a l IH]; simpl.
  - reflexivity.
  - f_equal. rewrite <- seq_shift, map_map. exact IH.
Qed.

Lemma length_flat_map_pairs {A I : Type} (f : I -> list A) (l : list I) :
  (forall i, length (f i) = 2) -> length (flat_map f l) = 2 * length l.
Proof.
  intros Hf. induction l as [|i l IH]; simpl; [reflexivity|].
  rewrite length_app, Hf, IH. lia.
Qed.

Lemma map_const_seq {A : Type} (a : A) (s n : nat) :
  map (fun _ => a) (seq s n) = repeat a n.
Proof.
  revert s. induction n as [|n IH]; intros s; simpl; [reflexivity | f_equal; apply IH].
Qed.

Lemma zeros_tabulate2 (B C : nat) : zeros B C = tabulate2 B C (fun _ _ => Num 0).
Proof.
  unfold zeros, tabulate2, range. rewrite (map_const_seq (Num 0) 0 C).
  symmetry. apply map_const_seq.
Qed.

Lemma update_map_seq (f : nat -> scalar) (v : scalar) (n c s : nat) :
  update c v (map f (seq s n))
  = map (fun c' => if c' =? s + c then v else f c') (seq s n).
Proof.
  revert c s. induction n as [|n IH]; intros c s.
  - destruct c; reflexivity.
  - destruct c as [|c]; simpl.
    + rewrite Nat.add_0_r, Nat.eqb_refl. f_equal.
      apply map_ext_in. intros c' Hc'. apply in_seq in Hc'.
      destruct (Nat.eqb_spec c' s); [lia | reflexivity].
    + destruct (Nat.eqb_spec s (s + S c)); [lia|]. f_equal.
      rewrite IH. apply map_ext. intros c'.
      replace (S s + c) with (s + S c) by lia. reflexivity.
Qed.

Lemma set_column_tabulate2 (B C c : nat) (g : nat -> scalar) (f : nat -> nat -> scalar) :
  set_column c (map g (range B)) (tabulate2 B C f)
  = tabulate2 B C (fun b c' => if c' =? c then g b else f b c').
Proof.
  unfold set_column, tabulate2, range.
  rewrite combine_map, map_map. apply map_ext. intros b. simpl.
  apply (update_map_seq (f b) (g b) C c 0).
Qed.

(** ** The class boundaries *)

Lemma nth_error_cumsum_from (l : list nat) (acc i : nat) :
  i < length l ->
  nth_error (cumsum_from acc l) i = Some (acc + list_sum (firstn (S i) l)).
Proof.
  revert acc i. induction l as [|x l IH]; intros acc i Hi; simpl in Hi; [lia|].
  destruct i as [|i].
  - simpl. f_equal. destruct l; simpl; lia.
  - rewrite (firstn_cons (S i)). cbn [cumsum_from nth_error].
    rewrite IH by lia. unfold list_sum. cbn [fold_right]. f_equal. lia.
Qed.

Lemma list_sum_firstn_S (l : list nat) (c : nat) :
  list_sum (firstn (S c) l) = list_sum (firstn c l) + nth c l 0.
Proof.
  revert c. induction l as [|x l IH]; intros c.
  - destruct c; reflexivity.
  - destruct c as [|c].
    + simpl. lia.
    + rewrite (firstn_cons (S c)), (firstn_cons c). cbn [nth].
      unfold list_sum in *. cbn [fold_right]. rewrite IH. lia.
Qed.

Lemma list_sum_firstn_le (l : list nat) (c : nat) :
  list_sum (firstn c l) <= list_sum l.
Proof.
  revert c. induction l as [|x l IH]; intros c.
  - destruct c; simpl; lia.
  - destruct c as [|c]; simpl; [lia|]. specialize (IH c). lia.
Qed.

Lemma forallb_ext {A : Type} (p q : A -> bool) (l : list A) :
  (forall a, p a = q a) -> forallb p l = forallb q l.
Proof.
  intros E. induction l as [|a l IH]; simpl; [reflexivity | rewrite E, IH; reflexivity].
Qed.

(** ** Sparse landmark-at-UV loss *)

(** The mean of the base loss over rows given by their index. *)
Lemma mean_loss_indexed (loss_fn : Loss) (m : nat -> bool) (h v : nat -> point) (n : nat) :
  mean_loss loss_fn (zero_where (map m (seq 0 n)) (map h (seq 0 n)))
                    (zero_where (map m (seq 0 n)) (map v (seq 0 n)))
  = sdiv (ssum (flat_map (fun i =>
                  let hat := if m i then (Num 0, Num 0) else h i in
                  let val := if m i then (Num 0, Num 0) else v i in
                  [elementwise loss_fn (fst hat) (fst val);
                   elementwise loss_fn (snd hat) (snd val)])
                (seq 0 n)))
         (of_nat (2 * n)).
Proof.
  unfold mean_loss, smean.
  rewrite !zero_where_map, combine_map, flat_map_map. cbn [fst snd].
  do 3 f_equal.
  rewrite length_flat_map_pairs by reflexivity.
  rewrite length_seq. reflexivity.
Qed.

Section LandmarkFacts.

Variable normalize_pixel_coordinates : point -> nat -> nat -> point.
Variable grid_sample : (nat -> nat -> scalar) -> nat -> nat -> point -> scalar.
Variable sh : Shape.
Variable uv : tensor5.
Variable landmarks : points.
Variable N : nat.
Variable landmark_uv_values : list (list point).
Variable loss_fn : Loss.

Local Abbreviation norm_lm' := (norm_lm normalize_pixel_coordinates sh landmarks).
Local Abbreviation step :=
  (class_step normalize_pixel_coordinates grid_sample sh uv landmarks N
     landmark_uv_values loss_fn).
Local Abbreviation start := (class_start landmark_uv_values).
Local Abbreviation size := (class_size landmark_uv_values).
Local Abbreviation all_outside :=
  (class_all_outside normalize_pixel_coordinates sh landmarks landmark_uv_values).
Local Abbreviation mean_of :=
  (class_mean normalize_pixel_coordinates grid_sample sh uv landmarks
     landmark_uv_values loss_fn).
Local Abbreviation reference :=
  (landmark_reference normalize_pixel_coordinates grid_sample sh uv landmarks
     landmark_uv_values loss_fn).

Lemma class_size_nth (c : nat) :
  nth c (map (@length point) landmark_uv_values) 0 = size c.
Proof.
  unfold class_size. change 0 with (length (@nil point)).
  apply (map_nth (@length point)).
Qed.

Lemma class_start_S (c : nat) : start (S c) = start c + size c.
Proof.
  unfold class_start. rewrite list_sum_firstn_S, class_size_nth. reflexivity.
Qed.

Lemma anatomy_idx_at (c : nat) :
  c <= length landmark_uv_values ->
  nth_error (anatomy_idx landmark_uv_values) c = Some (start c).
Proof.
  intros Hc. unfold anatomy_idx, cumsum.
  rewrite nth_error_cumsum_from by (simpl; rewrite length_map; lia).
  rewrite firstn_cons. reflexivity.
Qed.

(** The partition of the landmarks is well formed: every class of the map
    has its ground-truth values, and the landmarks cover all classes. *)
Hypothesis classes_have_values : classes sh <= length landmark_uv_values.
Hypothesis landmarks_cover_classes :
  list_sum (map (@length point) landmark_uv_values) <= N.

Lemma slice_class (c : nat) :
  slice (start c) (start c + size c) N = seq (start c) (size c).
Proof.
  unfold slice. f_equal.
  assert (Hle : start (S c) <= N).
  { unfold class_start.
    pose proof (list_sum_firstn_le (map (@length point) landmark_uv_values) (S c)). lia. }
  rewrite class_start_S in Hle. lia.
Qed.

Lemma mean_loss_class (b c : nat) :
  mean_loss loss_fn
    (zero_where (map outside (map (norm_lm' b) (seq (start c) (size c))))
       (map (fun p => (grid_sample (uv b c 0) (height sh) (width sh) p,
                       grid_sample (uv b c 1) (height sh) (width sh) p))
            (map (norm_lm' b) (seq (start c) (size c)))))
    (zero_where (map outside (map (norm_lm' b) (seq (start c) (size c))))
       (nth c landmark_uv_values []))
  = mean_of b c.
Proof.
  rewrite (map_seq_from (norm_lm' b) (start c) (size c)), !map_map.
  set (vals := nth c landmark_uv_values []).
  assert (Ev : vals = map (fun n => nth n vals (NaN, NaN)) (seq 0 (size c)))
    by apply list_as_map_nth.
  rewrite Ev at 1. rewrite mean_loss_indexed. reflexivity.
Qed.

Lemma skip_test (c : nat) :
  forallb (fun b => forallb (fun o : bool => o)
                      (map outside (map (norm_lm' b) (seq (start c) (size c)))))
          (range (batch sh))
  = all_outside c.
Proof.
  unfold class_all_outside. apply forallb_ext. intros b.
  rewrite (map_seq_from (norm_lm' b) (start c) (size c)), !map_map, forallb_map.
  reflexivity.
Qed.

(** One turn of the loop: a class whose landmarks are all out of range
    leaves the loss as it is, another class writes its column. *)
Lemma class_step_eq (c : nat) (loss : matrix) :
  c < classes sh ->
  step c loss
  = Ok (if all_outside c then loss
        else set_column c (map (fun b => mean_of b c) (range (batch sh))) loss).
Proof.
  intros Hc. unfold class_step.
  rewrite (anatomy_idx_at (c := c)) by lia.
  replace (c + 1) with (S c) by lia.
  rewrite (anatomy_idx_at (c := S c)) by lia.
  rewrite class_start_S, slice_class, skip_test.
  destruct (all_outside c); [reflexivity|].
  rewrite length_seq. fold (size c). rewrite Nat.eqb_refl.
  do 2 f_equal. apply map_ext. intros b. apply mean_loss_class.
Qed.

Lemma class_loop (k : nat) :
  k <= classes sh ->
  fold_left (fun acc c => loss <- acc ;; step c loss) (range k)
            (Ok (zeros (batch sh) (classes sh)))
  = Ok (tabulate2 (batch sh) (classes sh) (fun b c =>
          if c <? k then (if all_outside c then Num 0 else mean_of b c) else Num 0)).
Proof.
  unfold range. induction k as [|k IH]; intros Hk.
  - simpl. f_equal. apply zeros_tabulate2.
  - rewrite seq_S, fold_left_app, IH by lia. simpl.
    rewrite class_step_eq by lia. f_equal.
    destruct (all_outside k) eqn:Hskip.
    + apply tabulate2_ext. intros b c _ _.
      destruct (Nat.ltb_spec c k), (Nat.ltb_spec c (S k)); try lia; try reflexivity.
      assert (c = k) by lia. subst c. rewrite Hskip. reflexivity.
    + rewrite set_column_tabulate2. apply tabulate2_ext. intros b c _ _.
      destruct (Nat.eqb_spec c k) as [->|Hne].
      * rewrite Hskip. destruct (Nat.ltb_spec k (S k)); [reflexivity | lia].
      * destruct (Nat.ltb_spec c k), (Nat.ltb_spec c (S k)); try lia; reflexivity.
Qed.

(** The two assertions passed, the loss is the class-by-class value. *)
Lemma landmark_uv_loss_ok :
  reduction loss_fn = RNone ->
  any5 sh (fun b c u y x => isnan (uv b c u y x)) = false ->
  landmark_uv_loss normalize_pixel_coordinates grid_sample sh uv landmarks N
    landmark_uv_values loss_fn
  = Ok reference.
Proof.
  intros Hr Hn. unfold landmark_uv_loss. rewrite Hr, Hn. simpl.
  rewrite class_loop by lia. f_equal.
  apply tabulate2_ext. intros b c _ Hc.
  destruct (Nat.ltb_spec c (classes sh)); [reflexivity | lia].
Qed.

End LandmarkFacts.

Lemma any5_isnan (sh : Shape) (uv : tensor5) :
  any5 sh (fun b c u y x => isnan (uv b c u y x)) = true <-> has_nan sh uv.
Proof.
  unfold any5, has_nan, range. split.
  - intros E.
    apply existsb_exists in E. destruct E as (b & Hb & E).
    apply existsb_exists in E. destruct E as (c & Hc & E).
    apply existsb_exists in E. destruct E as (u & Hu & E).
    apply existsb_exists in E. destruct E as (y & Hy & E).
    apply existsb_exists in E. destruct E as (x & Hx & E).
    apply in_seq in Hb, Hc, Hu, Hy, Hx.
    exists b, c, u, y, x. repeat split; try lia. exact E.
  - intros (b & c & u & y & x & Hb & Hc & Hu & Hy & Hx & E).
    apply existsb_exists. exists b. split; [apply in_seq; lia|].
    apply existsb_exists. exists c. split; [apply in_seq; lia|].
    apply existsb_exists. exists u. split; [apply in_seq; lia|].
    apply existsb_exists. exists y. split; [apply in_seq; lia|].
    apply existsb_exists. exists x. split; [apply in_seq; lia | exact E].
Qed.

Lemma any5_isnan_false (sh : Shape) (uv : tensor5) :
  ~ has_nan sh uv -> any5 sh (fun b c u y x => isnan (uv b c u y x)) = false.
Proof.
  intros Hn. destruct (any5 _ _) eqn:E; [|reflexivity].
  exfalso. apply Hn. apply any5_isnan. exact E.
Qed.

(** The loop raises no assertion: a turn returns or raises an index error. *)
Lemma class_loop_no_assertion
    (normalize_pixel_coordinates : point -> nat -> nat -> point)
    (grid_sample : (nat -> nat -> scalar) -> nat -> nat -> point -> scalar)
    (sh : Shape) (uv : tensor5) (landmarks : points) (N : nat)
    (landmark_uv_values : list (list point)) (loss_fn : Loss)
    (cs : list nat) (acc : result matrix) (msg : string) :
  acc <> Err (AssertionError msg) ->
  fold_left (fun acc c => loss <- acc ;;
                          class_step normalize_pixel_coordinates grid_sample sh uv
                            landmarks N landmark_uv_values loss_fn c loss)
            cs acc
  <> Err (AssertionError msg).
Proof.
  revert acc. induction cs as [|c cs IH]; intros acc Hacc; simpl.
  - exact Hacc.
  - apply IH. destruct acc as [loss|e]; simpl; [|exact Hacc].
    unfold class_step.
    destruct (nth_error _ c); [|discriminate].
    destruct (nth_error _ (c + 1)); [|discriminate].
    destruct (forallb _ _); [discriminate|].
    destruct (_ =? _); discriminate.
Qed.

(** C6 (as amended).  The assertion of [landmark_uv_loss] is on the
    predicted map, its first argument: under a base loss without reduction
    a call whose predicted map holds a NaN fails the assertion, and a call
    whose predicted map holds none raises no assertion, whatever the
    ground-truth values are. *)
Theorem landmark_uv_loss_asserts_prediction
    (normalize_pixel_coordinates : point -> nat -> nat -> point)
    (grid_sample : (nat -> nat -> scalar) -> nat -> nat -> point -> scalar)
    (sh : Shape) (uv : tensor5) (landmarks : points) (N : nat)
    (landmark_uv_values : list (list point)) (loss_fn : Loss) :
  reduction loss_fn = RNone ->
  (has_nan sh uv ->
   landmark_uv_loss normalize_pixel_coordinates grid_sample sh uv landmarks N
     landmark_uv_values loss_fn
   = Err (AssertionError "uv should not contain NaN values"))
  /\ (~ has_nan sh uv ->
      forall msg,
        landmark_uv_loss normalize_pixel_coordinates grid_sample sh uv landmarks N
          landmark_uv_values loss_fn
        <> Err (AssertionError msg)).
Proof.
  intros Hr. split.
  - intros Hn. apply any5_isnan in Hn.
    unfold landmark_uv_loss. rewrite Hr, Hn. reflexivity.
  - intros Hn msg. apply any5_isnan_false in Hn.
    unfold landmark_uv_loss. rewrite Hr, Hn. simpl.
    apply class_loop_no_assertion. discriminate.
Qed.

(** C5.  A class all of whose landmarks are out of range in every image is
    skipped: its turn of the loop returns the loss tensor untouched, and the
    call, made with a base loss without reduction, a predicted map without
    NaN and a well-formed partition of the landmarks, returns a tensor whose
    entries for that class are exactly zero. *)
Theorem landmark_uv_loss_skips_absent_class
    (normalize_pixel_coordinates : point -> nat -> nat -> point)
    (grid_sample : (nat -> nat -> scalar) -> nat -> nat -> point -> scalar)
    (sh : Shape) (uv : tensor5) (landmarks : points) (N : nat)
    (landmark_uv_values : list (list point)) (loss_fn : Loss) (c : nat) :
  reduction loss_fn = RNone ->
  ~ has_nan sh uv ->
  classes sh <= length landmark_uv_values ->
  list_sum (map (@length point) landmark_uv_values) <= N ->
  c < classes sh ->
  (forall b n, b < batch sh -> n < class_size landmark_uv_values c ->
     class_outside normalize_pixel_coordinates sh landmarks landmark_uv_values b c n
     = true) ->
  (forall loss,
     class_step normalize_pixel_coordinates grid_sample sh uv landmarks N
       landmark_uv_values loss_fn c loss = Ok loss)
  /\ exists m,
       landmark_uv_loss normalize_pixel_coordinates grid_sample sh uv landmarks N
         landmark_uv_values loss_fn = Ok m
       /\ forall b, b < batch sh -> nth c (nth b m []) NaN = Num 0.
Proof.
  intros Hr Hn Hcl Hcov Hc Hout.
  assert (Hall : class_all_outside normalize_pixel_coordinates sh landmarks
                   landmark_uv_values c = true).
  { unfold class_all_outside, range.
    apply forallb_forall. intros b Hb. apply forallb_forall. intros n Hn'.
    apply in_seq in Hb, Hn'. apply Hout; lia. }
  split.
  - intros loss. rewrite class_step_eq by assumption. rewrite Hall. reflexivity.
  - eexists. split.
    + apply landmark_uv_loss_ok; try assumption. apply any5_isnan_false. exact Hn.
    + intros b Hb. unfold landmark_reference.
      rewrite nth_tabulate2 by assumption. rewrite Hall. reflexivity.
Qed.

(** C3 (as amended).  For a class with a landmark in range, the loss of an
    image is the mean of the base loss over all the landmarks of the class
    and the two coordinates, prediction and target of every out-of-range
    landmark being zero: the sum is divided by twice the number of landmarks
    of the class, the out-of-range ones included, and no one is added. *)
Theorem landmark_uv_loss_class_mean
    (normalize_pixel_coordinates : point -> nat -> nat -> point)
    (grid_sample : (nat -> nat -> scalar) -> nat -> nat -> point -> scalar)
    (sh : Shape) (uv : tensor5) (landmarks : points) (N : nat)
    (landmark_uv_values : list (list point)) (loss_fn : Loss) (b c : nat) :
  reduction loss_fn = RNone ->
  ~ has_nan sh uv ->
  classes sh <= length landmark_uv_values ->
  list_sum (map (@length point) landmark_uv_values) <= N ->
  b < batch sh -> c < classes sh ->
  class_all_outside normalize_pixel_coordinates sh landmarks landmark_uv_values c
  = false ->
  exists m,
    landmark_uv_loss normalize_pixel_coordinates grid_sample sh uv landmarks N
      landmark_uv_values loss_fn = Ok m
    /\ nth c (nth b m []) NaN
       = sdiv (ssum (class_errors normalize_pixel_coordinates grid_sample sh uv
                       landmarks landmark_uv_values loss_fn b c))
              (of_nat (2 * class_size landmark_uv_values c)).
Proof.
  intros Hr Hn Hcl Hcov Hb Hc Hsome.
  eexists. split.
  - apply landmark_uv_loss_ok; try assumption. apply any5_isnan_false. exact Hn.
  - unfold landmark_reference. rewrite nth_tabulate2 by assumption.
    rewrite Hsome. reflexivity.
Qed.

(** ** The loss on concrete landmarks *)

Lemma kornia_normalize_2x2 (x y : R) :
  kornia_normalize (Num x, Num y) 2 2 = (Num (2 * x - 1), Num (2 * y - 1)).
Proof.
  unfold kornia_normalize. cbn [fst snd].
  assert (E : Rmax (INR 2 - 1) (/ 100000000) = 1%R).
  { simpl INR. rewrite Rmax_left; lra. }
  rewrite E, sdiv_Num by lra.
  cbv beta iota delta [smul ssub lift2]. f_equal; f_equal; field.
Qed.

Lemma outside_right (x y : R) : (1 < x)%R -> outside (Num x, Num y) = true.
Proof.
  intros Hx. unfold outside, sgt, slt. cbn [fst snd].
  destruct (Rlt_dec x (-1)); [reflexivity|].
  destruct (Rlt_dec 1 x); [reflexivity | contradiction].
Qed.

Lemma outside_in_range (x y : R) :
  (-1 <= x <= 1)%R -> (-1 <= y <= 1)%R -> outside (Num x, Num y) = false.
Proof.
  intros Hx Hy. unfold outside, sgt, slt. cbn [fst snd].
  destruct (Rlt_dec x (-1)); [lra|].
  destruct (Rlt_dec 1 x); [lra|].
  destruct (Rlt_dec y (-1)); [lra|].
  destruct (Rlt_dec 1 y); [lra|]. reflexivity.
Qed.

Lemma bilinear_zero_map (b c u H W : nat) (x y : R) :
  bilinear_grid_sample (zero_map b c u) H W (Num x, Num y) = Num 0.
Proof.
  unfold bilinear_grid_sample, pixel_or_zero, zero_map.
  repeat match goal with |- context [if ?t then Num 0 else Num 0] =>
    replace (if t then Num 0 else Num 0) with (Num 0) by (destruct t; reflexivity)
  end.
  cbv beta iota zeta delta [ssum fold_right smul sadd lift2]. f_equal. ring.
Qed.

Lemma zero_map_no_nan (sh : Shape) : ~ has_nan sh zero_map.
Proof. intros (b & c & u & y & x & _ & _ & _ & _ & _ & E). discriminate E. Qed.

Lemma off_image_outside (b c n : nat) :
  class_outside kornia_normalize two_by_two off_image two_values b c n = true.
Proof.
  unfold class_outside, norm_lm, off_image. cbn [height width two_by_two].
  rewrite kornia_normalize_2x2. apply outside_right. lra.
Qed.

Lemma first_landmark_inside :
  class_outside kornia_normalize two_by_two inside_and_outside two_values 0 0 0 = false.
Proof.
  unfold class_outside, norm_lm. cbn [height width two_by_two].
  change (inside_and_outside 0 (class_start two_values 0 + 0)) with (Num 0, Num 0).
  rewrite kornia_normalize_2x2. apply outside_in_range; lra.
Qed.

Lemma second_landmark_outside :
  class_outside kornia_normalize two_by_two inside_and_outside two_values 0 0 1 = true.
Proof.
  unfold class_outside, norm_lm. cbn [height width two_by_two].
  change (inside_and_outside 0 (class_start two_values 0 + 1)) with (Num 5, Num 0).
  rewrite kornia_normalize_2x2. apply outside_right. lra.
Qed.

Lemma one_landmark_in_range :
  class_all_outside kornia_normalize two_by_two inside_and_outside two_values 0 = false.
Proof.
  unfold class_all_outside.
  change (range (batch two_by_two)) with [0].
  change (range (class_size two_values 0)) with [0; 1].
  cbn [forallb]. rewrite first_landmark_inside. reflexivity.
Qed.

Lemma class_errors_example :
  class_errors kornia_normalize bilinear_grid_sample two_by_two zero_map
    inside_and_outside two_values (L1Loss RNone) 0 0
  = [Num 1; Num 1; Num 0; Num 0].
Proof.
  unfold class_errors.
  change (range (class_size two_values 0)) with [0; 1].
  cbn [flat_map app]. rewrite first_landmark_inside, second_landmark_outside.
  cbn [height width two_by_two].
  unfold norm_lm. cbn [height width two_by_two].
  change (inside_and_outside 0 (class_start two_values 0 + 0)) with (Num 0, Num 0).
  rewrite kornia_normalize_2x2, !bilinear_zero_map.
  cbn [fst snd nth two_values elementwise L1Loss].
  cbv beta iota delta [sabs ssub lift1 lift2].
  replace (0 - 1)%R with (- (1))%R by lra.
  replace (0 - 0)%R with 0%R by lra.
  rewrite Rabs_Ropp, Rabs_R1, Rabs_R0. reflexivity.
Qed.

Lemma landmark_uv_loss_class_mean_witness :
  exists m,
    landmark_uv_loss kornia_normalize bilinear_grid_sample two_by_two zero_map
      inside_and_outside 2 two_values (L1Loss RNone) = Ok m
    /\ nth 0 (nth 0 m []) NaN
       = sdiv (ssum (class_errors kornia_normalize bilinear_grid_sample two_by_two
                       zero_map inside_and_outside two_values (L1Loss RNone) 0 0))
              (of_nat (2 * class_size two_values 0)).
Proof.
  apply (@landmark_uv_loss_class_mean kornia_normalize bilinear_grid_sample two_by_two
           zero_map inside_and_outside 2 two_values (L1Loss RNone) 0 0).
  - reflexivity.
  - apply zero_map_no_nan.
  - simpl. lia.
  - simpl. lia.
  - simpl. lia.
  - simpl. lia.
  - apply one_landmark_in_range.
Defined.

(** C3 as stated fails on the normalisation: with one landmark in range and
    one out of range the four per-element losses 1, 1, 0, 0 give the class
    the value 2 / 4, where the number of valid elements plus one gives
    2 / 3. *)
Lemma landmark_uv_loss_divides_by_all_landmarks :
  landmark_uv_loss kornia_normalize bilinear_grid_sample two_by_two zero_map
    inside_and_outside 2 two_values (L1Loss RNone)
  = Ok [[Num (1 / 2)]]
  /\ class_mean_with_floor kornia_normalize bilinear_grid_sample two_by_two zero_map
       inside_and_outside two_values (L1Loss RNone) 0 0
     = Num (2 / 3).
Proof.
  split.
  - rewrite landmark_uv_loss_ok;
      [ | simpl; lia | simpl; lia | reflexivity
        | apply any5_isnan_false, zero_map_no_nan ].
    f_equal. unfold landmark_reference, tabulate2.
    change (range (batch two_by_two)) with [0].
    change (range (classes two_by_two)) with [0].
    cbn [map]. rewrite one_landmark_in_range.
    unfold class_mean. rewrite class_errors_example.
    change (class_size two_values 0) with 2.
    cbv beta iota delta [ssum fold_right sadd lift2 of_nat].
    rewrite sdiv_Num by (simpl; lra).
    do 3 f_equal. simpl. field.
  - unfold class_mean_with_floor, class_valid_elements.
    rewrite class_errors_example.
    change (range (class_size two_values 0)) with [0; 1].
    cbn [map]. rewrite first_landmark_inside, second_landmark_outside.
    cbn [negb count_true filter length Nat.mul Nat.add].
    cbv beta iota delta [ssum fold_right sadd lift2 of_nat].
    rewrite sdiv_Num by (simpl; lra).
    f_equal. simpl. field.
Qed.

Lemma landmark_uv_loss_skips_absent_class_witness :
  (forall loss,
     class_step kornia_normalize bilinear_grid_sample two_by_two zero_map off_image 2
       two_values (L1Loss RNone) 0 loss = Ok loss)
  /\ exists m,
       landmark_uv_loss kornia_normalize bilinear_grid_sample two_by_two zero_map
         off_image 2 two_values (L1Loss RNone) = Ok m
       /\ forall b, b < batch two_by_two -> nth 0 (nth b m []) NaN = Num 0.
Proof.
  apply (@landmark_uv_loss_skips_absent_class kornia_normalize bilinear_grid_sample
           two_by_two zero_map off_image 2 two_values (L1Loss RNone) 0).
  - reflexivity.
  - apply zero_map_no_nan.
  - simpl. lia.
  - simpl. lia.
  - simpl. lia.
  - intros b n _ _. apply off_image_outside.
Defined.

Lemma nan_value_landmark_inside :
  class_outside kornia_normalize two_by_two inside_and_outside nan_value 0 0 0 = false.
Proof.
  unfold class_outside, norm_lm. cbn [height width two_by_two].
  change (inside_and_outside 0 (class_start nan_value 0 + 0)) with (Num 0, Num 0).
  rewrite kornia_normalize_2x2. apply outside_in_range; lra.
Qed.

(** C6 as stated fails in both directions: a NaN among the ground-truth
    values raises no assertion (the loss of the class is NaN), and a NaN in
    the predicted map fails the assertion under ground-truth values without
    NaN. *)
Lemma landmark_uv_loss_accepts_nan_ground_truth :
  landmark_uv_loss kornia_normalize bilinear_grid_sample two_by_two zero_map
    inside_and_outside 1 nan_value (L1Loss RNone)
  = Ok [[NaN]]
  /\ landmark_uv_loss kornia_normalize bilinear_grid_sample two_by_two nan_map
       inside_and_outside 2 two_values (L1Loss RNone)
     = Err (AssertionError "uv should not contain NaN values").
Proof.
  split.
  - rewrite landmark_uv_loss_ok;
      [ | simpl; lia | simpl; lia | reflexivity
        | apply any5_isnan_false, zero_map_no_nan ].
    f_equal. unfold landmark_reference, tabulate2.
    change (range (batch two_by_two)) with [0].
    change (range (classes two_by_two)) with [0].
    cbn [map].
    assert (E : class_all_outside kornia_normalize two_by_two inside_and_outside
                  nan_value 0 = false).
    { unfold class_all_outside.
      change (range (batch two_by_two)) with [0].
      change (range (class_size nan_value 0)) with [0].
      cbn [forallb]. rewrite nan_value_landmark_inside. reflexivity. }
    rewrite E. unfold class_mean, class_errors.
    change (range (class_size nan_value 0)) with [0].
    cbn [flat_map app]. rewrite nan_value_landmark_inside.
    unfold norm_lm. cbn [height width two_by_two].
    change (inside_and_outside 0 (class_start nan_value 0 + 0)) with (Num 0, Num 0).
    rewrite kornia_normalize_2x2, !bilinear_zero_map.
    reflexivity.
  - reflexivity.
Qed.

Lemma landmark_uv_loss_asserts_prediction_witness :
  landmark_uv_loss kornia_normalize bilinear_grid_sample two_by_two nan_map
    inside_and_outside 2 two_values (L1Loss RNone)
  = Err (AssertionError "uv should not contain NaN values")
  /\ forall msg,
       landmark_uv_loss kornia_normalize bilinear_grid_sample two_by_two zero_map
         inside_and_outside 2 nan_value (L1Loss RNone)
       <> Err (AssertionError msg).
Proof.
  split.
  - apply (@landmark_uv_loss_asserts_prediction kornia_normalize bilinear_grid_sample
             two_by_two nan_map inside_and_outside 2 two_values (L1Loss RNone)).
    + reflexivity.
    + exists 0, 0, 0, 0, 0. unfold UV. simpl. repeat split; lia.
  - apply (@landmark_uv_loss_asserts_prediction kornia_normalize bilinear_grid_sample
             two_by_two zero_map inside_and_outside 2 nan_value (L1Loss RNone)).
    + reflexivity.
    + apply zero_map_no_nan.
Defined.

(** * Further properties of the code *)

(** ** Base losses *)

Lemma L1Loss_vanishes (r : Reduction) : vanishes_on_equal (L1Loss r).
Proof.
  intros x. simpl. f_equal. replace (x - x)%R with 0%R by lra. apply Rabs_R0.
Qed.

Lemma MSELoss_vanishes (r : Reduction) : vanishes_on_equal (MSELoss r).
Proof. intros x. simpl. f_equal. ring. Qed.

Lemma L1Loss_nonnegative (r : Reduction) : nonnegative_loss (L1Loss r).
Proof.
  intros x y. exists (Rabs (x - y)). split; [reflexivity | apply Rabs_pos].
Qed.

Lemma MSELoss_nonnegative (r : Reduction) : nonnegative_loss (MSELoss r).
Proof.
  intros x y. exists ((x - y) * (x - y))%R. split; [reflexivity|].
  apply Rle_0_sqr.
Qed.

Lemma ssum_nonnegative (l : list scalar) :
  (forall s, In s l -> nonnegative s) -> nonnegative (ssum l).
Proof.
  induction l as [|a l IH]; intros Hl.
  - exists 0%R. split; [reflexivity | lra].
  - rewrite ssum_cons.
    destruct (Hl a (or_introl eq_refl)) as (x & -> & Hx).
    destruct IH as (y & -> & Hy); [intros s Hs; apply Hl; right; exact Hs|].
    exists (x + y)%R. split; [reflexivity | lra].
Qed.

Lemma sdiv_count_nonnegative (s : scalar) (n : nat) :
  nonnegative s -> nonnegative (sdiv s (of_nat (n + 1))).
Proof.
  intros (r & -> & Hr). rewrite sdiv_count. exists (r / INR (n + 1))%R.
  split; [reflexivity|].
  apply Rmult_le_pos; [exact Hr|].
  apply Rlt_le, Rinv_0_lt_compat, lt_0_INR. lia.
Qed.

Lemma sdiv_count_zero (n : nat) : sdiv (Num 0) (of_nat (n + 1)) = Num 0.
Proof. rewrite sdiv_count. f_equal. unfold Rdiv. apply Rmult_0_l. Qed.

Lemma not_nan_Num (s : scalar) : isnan s = false -> exists r, s = Num r.
Proof. destruct s as [|r]; [discriminate | intros _; exists r; reflexivity]. Qed.

(** ** Dense UV regression loss *)

(** X1.  [balanced_normalized_uv_loss] tests the reduction of the base loss
    first and the ground truth second, and returns exactly when both tests
    pass; a map with a zero dimension, an empty batch for one, has no valid
    entry and fails the second test. *)
Theorem dense_uv_loss_failures (sh : Shape) (uv_hat uv : tensor5) (loss_fn : Loss) :
  (reduction loss_fn <> RNone ->
   balanced_normalized_uv_loss sh uv_hat uv loss_fn
   = Err (AssertionError "loss_fn must have reduction set to none"))
  /\ (reduction loss_fn = RNone -> ~ some_valid sh uv ->
      balanced_normalized_uv_loss sh uv_hat uv loss_fn
      = Err (AssertionError "uv must contain some valid values"))
  /\ (reduction loss_fn = RNone ->
      batch sh = 0 \/ classes sh = 0 \/ height sh = 0 \/ width sh = 0 ->
      balanced_normalized_uv_loss sh uv_hat uv loss_fn
      = Err (AssertionError "uv must contain some valid values"))
  /\ ((exists m, balanced_normalized_uv_loss sh uv_hat uv loss_fn = Ok m)
      <-> reduction loss_fn = RNone /\ some_valid sh uv).
Proof.
  assert (H1 : reduction loss_fn <> RNone ->
               balanced_normalized_uv_loss sh uv_hat uv loss_fn
               = Err (AssertionError "loss_fn must have reduction set to none")).
  { intros Hr. unfold balanced_normalized_uv_loss.
    destruct (reduction loss_fn); [contradiction | reflexivity | reflexivity]. }
  split; [exact H1 | split; [|split]].
  - intros Hr Hv. apply balanced_normalized_uv_loss_all_nan; assumption.
  - intros Hr Hz. apply balanced_normalized_uv_loss_all_nan; [exact Hr|].
    intros (b & c & u & y & x & Hb & Hc & Hu & Hy & Hx & _). lia.
  - split.
    + intros (m & Hm).
      destruct (Reduction_eqb (reduction loss_fn) RNone) eqn:Hr.
      * assert (Hn : reduction loss_fn = RNone)
          by (destruct (reduction loss_fn); [reflexivity | discriminate Hr ..]).
        split; [exact Hn|].
        apply all5_isnan.
        destruct (all5 sh (fun b c u y x => isnan (uv b c u y x))) eqn:E; [|reflexivity].
        unfold balanced_normalized_uv_loss in Hm. rewrite Hr, E in Hm. discriminate Hm.
      * unfold balanced_normalized_uv_loss in Hm. rewrite Hr in Hm. discriminate Hm.
    + intros (Hr & Hv). eexists. apply balanced_normalized_uv_loss_ok; assumption.
Qed.

Lemma dense_uv_reference_zero (sh : Shape) (uv_hat uv : tensor5) (loss_fn : Loss)
    (b c : nat) :
  vanishes_on_equal loss_fn ->
  (forall u y x, u < UV -> y < height sh -> x < width sh ->
     isnan (uv b c u y x) = false -> uv_hat b c u y x = uv b c u y x) ->
  sdiv (ssum (entries sh (fun u y x =>
          elementwise loss_fn
            (if isnan (uv b c u y x) then Num 0 else uv_hat b c u y x)
            (if isnan (uv b c u y x) then Num 0 else uv b c u y x))))
       (of_nat (count_true (entries sh (fun u y x => negb (isnan (uv b c u y x)))) + 1))
  = Num 0.
Proof.
  intros Hz Heq. rewrite ssum_zero; [apply sdiv_count_zero|].
  intros s Hs. apply in_entries in Hs.
  destruct Hs as (u & y & x & Hu & Hy & Hx & ->).
  destruct (isnan (uv b c u y x)) eqn:E; [apply Hz|].
  rewrite (Heq u y x) by assumption.
  destruct (not_nan_Num _ E) as (r & ->). apply Hz.
Qed.

(** X2.  A prediction that equals the ground truth wherever the ground truth
    is valid has zero loss in every class of every image, under every base
    loss that vanishes on equal entries, [L1Loss] and [MSELoss] among them;
    so has the monitoring metric [uv_l1_loss]. *)
Theorem dense_uv_loss_perfect_prediction (sh : Shape) (uv_hat uv : tensor5)
    (loss_fn : Loss) :
  reduction loss_fn = RNone ->
  vanishes_on_equal loss_fn ->
  some_valid sh uv ->
  (forall b c u y x,
     b < batch sh -> c < classes sh -> u < UV -> y < height sh -> x < width sh ->
     isnan (uv b c u y x) = false -> uv_hat b c u y x = uv b c u y x) ->
  balanced_normalized_uv_loss sh uv_hat uv loss_fn
  = Ok (tabulate2 (batch sh) (classes sh) (fun _ _ => Num 0))
  /\ uv_l1_loss sh uv_hat uv
     = Ok (tabulate2 (batch sh) (classes sh) (fun _ _ => Num 0)).
Proof.
  intros Hr Hz Hv Heq.
  assert (A : forall L, reduction L = RNone -> vanishes_on_equal L ->
              balanced_normalized_uv_loss sh uv_hat uv L
              = Ok (tabulate2 (batch sh) (classes sh) (fun _ _ => Num 0))).
  { intros L HrL HzL. rewrite balanced_normalized_uv_loss_ok by assumption.
    f_equal. unfold dense_uv_reference. apply tabulate2_ext. intros b c Hb Hc.
    apply dense_uv_reference_zero; [exact HzL|].
    intros u y x Hu Hy Hx. apply Heq; assumption. }
  split.
  - apply A; assumption.
  - unfold uv_l1_loss. apply A; [reflexivity | apply L1Loss_vanishes].
Qed.

Lemma dense_uv_loss_perfect_prediction_witness :
  balanced_normalized_uv_loss two_by_two half_nan_map half_nan_map (MSELoss RNone)
  = Ok [[Num 0]]
  /\ uv_l1_loss two_by_two half_nan_map half_nan_map = Ok [[Num 0]].
Proof.
  apply (@dense_uv_loss_perfect_prediction two_by_two half_nan_map half_nan_map
           (MSELoss RNone)).
  - reflexivity.
  - apply MSELoss_vanishes.
  - exists 0, 0, 0, 0, 0. unfold UV. simpl. repeat split; lia.
  - reflexivity.
Defined.

(** X3.  A class that is absent from an image, its ground truth NaN at every
    entry, has a loss of exactly zero in that image whatever the prediction
    holds there, NaN included, as long as the batch has a valid entry
    somewhere. *)
Theorem dense_uv_loss_absent_class (sh : Shape) (uv_hat uv : tensor5)
    (loss_fn : Loss) (b c : nat) :
  reduction loss_fn = RNone ->
  vanishes_on_equal loss_fn ->
  some_valid sh uv ->
  b < batch sh -> c < classes sh ->
  (forall u y x, u < UV -> y < height sh -> x < width sh ->
     isnan (uv b c u y x) = true) ->
  exists m, balanced_normalized_uv_loss sh uv_hat uv loss_fn = Ok m
            /\ nth c (nth b m []) NaN = Num 0.
Proof.
  intros Hr Hz Hv Hb Hc Habs. eexists. split.
  - apply balanced_normalized_uv_loss_ok; assumption.
  - unfold dense_uv_reference. rewrite nth_tabulate2 by assumption.
    apply dense_uv_reference_zero; [exact Hz|].
    intros u y x Hu Hy Hx E. rewrite Habs in E by assumption. discriminate E.
Qed.

(** X4.  When the prediction is a number wherever the ground truth is
    valid, every entry of the loss is a number and is not negative, under
    every base loss that is not negative on numbers: a NaN of the ground
    truth never reaches the result. *)
Theorem dense_uv_loss_nonnegative (sh : Shape) (uv_hat uv : tensor5) (loss_fn : Loss) :
  reduction loss_fn = RNone ->
  nonnegative_loss loss_fn ->
  some_valid sh uv ->
  (forall b c u y x,
     b < batch sh -> c < classes sh -> u < UV -> y < height sh -> x < width sh ->
     isnan (uv b c u y x) = false -> isnan (uv_hat b c u y x) = false) ->
  exists m, balanced_normalized_uv_loss sh uv_hat uv loss_fn = Ok m
            /\ forall b c, b < batch sh -> c < classes sh ->
                 nonnegative (nth c (nth b m []) NaN).
Proof.
  intros Hr Hp Hv Hfin. eexists. split.
  - apply balanced_normalized_uv_loss_ok; assumption.
  - intros b c Hb Hc. unfold dense_uv_reference.
    rewrite nth_tabulate2 by assumption.
    apply sdiv_count_nonnegative, ssum_nonnegative.
    intros s Hs. apply in_entries in Hs.
    destruct Hs as (u & y & x & Hu & Hy & Hx & ->).
    destruct (isnan (uv b c u y x)) eqn:E; [apply Hp|].
    destruct (not_nan_Num _ E) as (v & ->).
    destruct (not_nan_Num _ (Hfin b c u y x Hb Hc Hu Hy Hx E)) as (h & ->).
    apply Hp.
Qed.

Lemma dense_uv_loss_absent_class_witness :
  exists m,
    balanced_normalized_uv_loss two_classes nan_map second_class_absent (L1Loss RNone)
    = Ok m
    /\ nth 1 (nth 0 m []) NaN = Num 0.
Proof.
  apply (@dense_uv_loss_absent_class two_classes nan_map second_class_absent
           (L1Loss RNone) 0 1).
  - reflexivity.
  - apply L1Loss_vanishes.
  - exists 0, 0, 0, 0, 0. unfold UV. simpl. repeat split; lia.
  - simpl. lia.
  - simpl. lia.
  - reflexivity.
Defined.

Lemma dense_uv_loss_nonnegative_witness :
  exists m,
    balanced_normalized_uv_loss two_by_two zero_map half_nan_map (MSELoss RNone) = Ok m
    /\ forall b c, b < 1 -> c < 1 -> nonnegative (nth c (nth b m []) NaN).
Proof.
  apply (@dense_uv_loss_nonnegative two_by_two zero_map half_nan_map (MSELoss RNone)).
  - reflexivity.
  - apply MSELoss_nonnegative.
  - exists 0, 0, 0, 0, 0. unfold UV. simpl. repeat split; lia.
  - reflexivity.
Defined.

(** ** Total variation *)

Lemma gradient1_number (n i : nat) (f : nat -> scalar) :
  2 <= n -> i < n ->
  (forall j, j < n -> exists r, f j = Num r) ->
  exists g, gradient1 n f i = Num g.
Proof.
  intros Hn Hi Hf. unfold gradient1.
  destruct (Nat.eqb_spec i 0) as [->|H0].
  - destruct (Hf 1 ltac:(lia)) as (a & ->), (Hf 0 ltac:(lia)) as (b & ->).
    eexists. reflexivity.
  - destruct (Nat.eqb_spec i (n - 1)) as [->|H1].
    + destruct (Hf (n - 1) ltac:(lia)) as (a & ->), (Hf (n - 2) ltac:(lia)) as (b & ->).
      eexists. reflexivity.
    + destruct (Hf (i + 1) ltac:(lia)) as (a & ->), (Hf (i - 1) ltac:(lia)) as (b & ->).
      cbv beta iota delta [ssub lift2]. rewrite sdiv_Num by lra.
      eexists. reflexivity.
Qed.

Lemma gradient1_constant (n i : nat) (f : nat -> scalar) (k : R) :
  2 <= n -> i < n ->
  (forall j, j < n -> f j = Num k) ->
  gradient1 n f i = Num 0.
Proof.
  intros Hn Hi Hf. unfold gradient1.
  destruct (Nat.eqb_spec i 0) as [->|H0].
  - rewrite !Hf by lia. simpl. f_equal. lra.
  - destruct (Nat.eqb_spec i (n - 1)) as [->|H1].
    + rewrite !Hf by lia. simpl. f_equal. lra.
    + rewrite !Hf by lia.
      cbv beta iota delta [ssub lift2]. rewrite sdiv_Num by lra. f_equal. lra.
Qed.

Lemma ssqrt_sum_of_squares (a b : R) :
  ssqrt (sadd (spow2 (Num a)) (spow2 (Num b))) = Num (sqrt (a * a + b * b)).
Proof.
  cbv beta iota delta [spow2 smul sadd lift2 ssqrt].
  destruct (Rlt_dec (a * a + b * b) 0) as [F|_]; [|reflexivity].
  exfalso. pose proof (Rle_0_sqr a). pose proof (Rle_0_sqr b). unfold Rsqr in *. lra.
Qed.

Lemma gradient_norm_nonnegative (sh : Shape) (uv : tensor5) (b c u y x : nat) :
  2 <= height sh -> 2 <= width sh -> y < height sh -> x < width sh ->
  (forall y' x', y' < height sh -> x' < width sh -> isnan (uv b c u y' x') = false) ->
  nonnegative (gradient_norm sh uv b c u y x).
Proof.
  intros HH HW Hy Hx Hfin. unfold gradient_norm.
  destruct (@gradient1_number (height sh) y (fun i => uv b c u i x) HH Hy) as (gy & ->).
  { intros j Hj. apply not_nan_Num, Hfin; assumption. }
  destruct (@gradient1_number (width sh) x (fun j => uv b c u y j) HW Hx) as (gx & ->).
  { intros j Hj. apply not_nan_Num, Hfin; assumption. }
  rewrite ssqrt_sum_of_squares. eexists. split; [reflexivity | apply sqrt_pos].
Qed.

(** X5.  On a map whose entries are numbers in a class of an image, the
    total variation of that class is a number and is not negative, whatever
    the mask is. *)
Theorem total_variation_nonnegative (sh : Shape) (uv : tensor5) (mask : mask4)
    (b c : nat) :
  2 <= height sh -> 2 <= width sh ->
  b < batch sh -> c < classes sh ->
  (forall u y x, u < UV -> y < height sh -> x < width sh ->
     isnan (uv b c u y x) = false) ->
  exists tv, total_variation sh uv mask = Ok tv
             /\ nonnegative (nth c (nth b tv []) NaN).
Proof.
  intros HH HW Hb Hc Hfin. eexists. split.
  - apply total_variation_ok; assumption.
  - unfold total_variation_reference. rewrite nth_tabulate2 by assumption.
    apply sdiv_count_nonnegative, ssum_nonnegative.
    intros s Hs. apply in_pixels in Hs. destruct Hs as (y & x & Hy & Hx & ->).
    destruct (mask b c y x); [|exists 0%R; split; [reflexivity | lra]].
    destruct (@gradient_norm_nonnegative sh uv b c 0 y x) as (n0 & -> & H0);
      try assumption.
    { intros y' x' Hy' Hx'. apply Hfin; unfold UV; try lia; assumption. }
    destruct (@gradient_norm_nonnegative sh uv b c 1 y x) as (n1 & -> & H1);
      try assumption.
    { intros y' x' Hy' Hx'. apply Hfin; unfold UV; try lia; assumption. }
    cbv beta iota delta [sadd lift2]. rewrite sdiv_Num by lra.
    eexists. split; [reflexivity|]. apply Rle_0_sqr.
Qed.

Lemma total_variation_nonnegative_witness :
  exists tv, total_variation two_by_two ramp_map (fun _ _ _ _ => true) = Ok tv
             /\ nonnegative (nth 0 (nth 0 tv []) NaN).
Proof.
  apply (@total_variation_nonnegative two_by_two ramp_map (fun _ _ _ _ => true) 0 0);
    simpl; try lia; intros; reflexivity.
Defined.

(** X6.  A class whose two coordinate channels are constant over an image
    has a total variation of exactly zero there, whatever the mask is: the
    smoothness penalty vanishes on flat maps. *)
Theorem total_variation_constant_map (sh : Shape) (uv : tensor5) (mask : mask4)
    (b c : nat) (k : nat -> R) :
  2 <= height sh -> 2 <= width sh ->
  b < batch sh -> c < classes sh ->
  (forall u y x, u < UV -> y < height sh -> x < width sh ->
     uv b c u y x = Num (k u)) ->
  exists tv, total_variation sh uv mask = Ok tv
             /\ nth c (nth b tv []) NaN = Num 0.
Proof.
  intros HH HW Hb Hc Hk. eexists. split.
  - apply total_variation_ok; assumption.
  - unfold total_variation_reference. rewrite nth_tabulate2 by assumption.
    rewrite ssum_zero; [apply sdiv_count_zero|].
    intros s Hs. apply in_pixels in Hs. destruct Hs as (y & x & Hy & Hx & ->).
    destruct (mask b c y x); [|reflexivity].
    assert (G : forall u, u < UV -> gradient_norm sh uv b c u y x = Num 0).
    { intros u Hu. unfold gradient_norm.
      rewrite (@gradient1_constant (height sh) y (fun i => uv b c u i x) (k u))
        by (try assumption; intros j Hj; apply Hk; assumption).
      rewrite (@gradient1_constant (width sh) x (fun j => uv b c u y j) (k u))
        by (try assumption; intros j Hj; apply Hk; assumption).
      rewrite ssqrt_sum_of_squares. f_equal.
      replace (0 * 0 + 0 * 0)%R with 0%R by lra. apply sqrt_0. }
    rewrite !G by (unfold UV; lia).
    cbv beta iota delta [sadd lift2]. rewrite sdiv_Num by lra.
    simpl. f_equal. lra.
Qed.

Lemma total_variation_constant_map_witness :
  exists tv, total_variation two_by_two one_map (fun _ _ _ _ => true) = Ok tv
             /\ nth 0 (nth 0 tv []) NaN = Num 0.
Proof.
  apply (@total_variation_constant_map two_by_two one_map (fun _ _ _ _ => true) 0 0
           (fun _ => 1%R)); simpl; try lia; intros; reflexivity.
Defined.

(** ** Sparse landmark-at-UV loss *)

Lemma fold_left_ext_in {A B : Type} (f g : A -> B -> A) (l : list B) (a : A) :
  (forall b acc, In b l -> f acc b = g acc b) -> fold_left f l a = fold_left g l a.
Proof.
  revert a. induction l as [|b l IH]; intros a E; simpl; [reflexivity|].
  rewrite (E b a (or_introl eq_refl)). apply IH.
  intros b' acc Hb'. apply E. right. exact Hb'.
Qed.

Lemma length_cumsum_from (l : list nat) (acc : nat) :
  length (cumsum_from acc l) = length l.
Proof.
  revert acc. induction l as [|x l IH]; intros acc; simpl; [reflexivity|].
  rewrite IH. reflexivity.
Qed.

Lemma length_update (c : nat) (v : scalar) (row : list scalar) :
  length (update c v row) = length row.
Proof.
  revert c. induction row as [|x row IH]; intros c; destruct c; simpl;
    try reflexivity. rewrite IH. reflexivity.
Qed.

Lemma zero_where_ext (f g : point -> point) (pts : list point) :
  (forall p, outside p = false -> f p = g p) ->
  zero_where (map outside pts) (map f pts) = zero_where (map outside pts) (map g pts).
Proof.
  intros E. rewrite !zero_where_map. apply map_ext. intros p.
  destruct (outside p) eqn:O; [reflexivity | apply E; exact O].
Qed.

Section LandmarkExtras.

Variable normalize_pixel_coordinates : point -> nat -> nat -> point.
Variable grid_sample : (nat -> nat -> scalar) -> nat -> nat -> point -> scalar.
Variable sh : Shape.
Variable uv : tensor5.
Variable landmarks : points.
Variable N : nat.
Variable loss_fn : Loss.

Local Abbreviation step values :=
  (class_step normalize_pixel_coordinates grid_sample sh uv landmarks N values loss_fn).
Local Abbreviation loop values cs start :=
  (fold_left (fun acc c => bind acc (fun loss => step values c loss)) cs start).
Local Abbreviation sparse_loss values :=
  (landmark_uv_loss normalize_pixel_coordinates grid_sample sh uv landmarks N values
     loss_fn).

Lemma class_step_cases (values : list (list point)) (c : nat) (loss : matrix) :
  (exists loss', step values c loss = Ok loss')
  \/ (exists msg, step values c loss = Err (IndexError msg)).
Proof.
  unfold class_step.
  destruct (nth_error _ c); [|right; eexists; reflexivity].
  destruct (nth_error _ (c + 1)); [|right; eexists; reflexivity].
  destruct (forallb _ _); [left; eexists; reflexivity|].
  destruct (_ =? _); [left | right]; eexists; reflexivity.
Qed.

Lemma loop_Err (values : list (list point)) (cs : list nat) (e : exn) :
  loop values cs (Err e) = Err e.
Proof. induction cs as [|c cs IH]; simpl; [reflexivity | exact IH]. Qed.

Lemma loop_cases (values : list (list point)) (cs : list nat) (loss : matrix) :
  (exists loss', loop values cs (Ok loss) = Ok loss')
  \/ (exists msg, loop values cs (Ok loss) = Err (IndexError msg)).
Proof.
  revert loss. induction cs as [|c cs IH]; intros loss; simpl.
  - left. eexists. reflexivity.
  - destruct (class_step_cases values c loss) as [(loss' & ->)|(msg & ->)].
    + apply IH.
    + right. exists msg. apply loop_Err.
Qed.

(** X7.  [landmark_uv_loss] does not check that every class of the map has
    its list of ground-truth values: with fewer lists than classes the loop
    runs out of the boundary index and the call raises an index error. *)
Theorem landmark_uv_loss_missing_values (values : list (list point)) :
  reduction loss_fn = RNone ->
  ~ has_nan sh uv ->
  length values < classes sh ->
  exists msg, sparse_loss values = Err (IndexError msg).
Proof.
  intros Hr Hn Hlen. unfold landmark_uv_loss.
  rewrite Hr, (any5_isnan_false Hn). simpl.
  unfold range. generalize (zeros (batch sh) (classes sh)). intros loss0.
  replace (classes sh) with (length values + (1 + (classes sh - length values - 1)))
    by lia.
  rewrite !seq_app, !fold_left_app. cbn [seq fold_left Nat.add].
  assert (Hstep : forall loss, exists msg,
             step values (length values) loss = Err (IndexError msg)).
  { intros loss. unfold class_step.
    destruct (nth_error (anatomy_idx values) (length values)); [|eexists; reflexivity].
    assert (E : nth_error (anatomy_idx values) (length values + 1) = None).
    { apply nth_error_None. unfold anatomy_idx, cumsum.
      rewrite length_cumsum_from. simpl. rewrite length_map. lia. }
    rewrite E. eexists. reflexivity. }
  destruct (loop_cases values (seq 0 (length values)) loss0)
    as [(loss' & ->)|(msg & ->)].
  - cbn [bind]. destruct (Hstep loss') as (msg & ->). exists msg. apply loop_Err.
  - cbn [bind]. exists msg. apply loop_Err.
Qed.

Lemma class_start_app (values extra : list (list point)) (c : nat) :
  c <= length values ->
  class_start (values ++ extra) c = class_start values c.
Proof.
  intros Hc. unfold class_start. rewrite map_app, firstn_app, length_map.
  replace (c - length values) with 0 by lia. simpl. rewrite app_nil_r. reflexivity.
Qed.

Lemma class_step_app (values extra : list (list point)) (c : nat) (loss : matrix) :
  c < length values ->
  step (values ++ extra) c loss = step values c loss.
Proof.
  intros Hc. unfold class_step.
  rewrite (@anatomy_idx_at (values ++ extra) c) by (rewrite length_app; lia).
  rewrite (@anatomy_idx_at values c) by lia.
  replace (c + 1) with (S c) by lia.
  rewrite (@anatomy_idx_at (values ++ extra) (S c)) by (rewrite length_app; lia).
  rewrite (@anatomy_idx_at values (S c)) by lia.
  rewrite !class_start_app by lia.
  rewrite app_nth1 by exact Hc. reflexivity.
Qed.

(** X8.  [landmark_uv_loss] reads the ground-truth lists of the classes of
    the map only: further lists at the end change neither the result nor
    the exception. *)
Theorem landmark_uv_loss_extra_values (values extra : list (list point)) :
  classes sh <= length values ->
  sparse_loss (values ++ extra) = sparse_loss values.
Proof.
  intros Hlen. unfold landmark_uv_loss.
  destruct (assert _ _); [|reflexivity].
  destruct (assert _ _); [|reflexivity].
  cbn [bind]. apply fold_left_ext_in. intros c acc Hc.
  apply in_seq in Hc. destruct acc as [loss|e]; [|reflexivity].
  cbn [bind]. apply class_step_app. lia.
Qed.

Lemma loop_skip_all (values : list (list point)) (cs : list nat) (loss : matrix) :
  (forall c, In c cs -> step values c loss = Ok loss) ->
  loop values cs (Ok loss) = Ok loss.
Proof.
  induction cs as [|c cs IH]; intros Hs; simpl; [reflexivity|].
  rewrite (Hs c (or_introl eq_refl)). apply IH.
  intros c' Hc'. apply Hs. right. exact Hc'.
Qed.

(** X9.  With an empty batch, or with a landmark tensor that holds no
    landmark, every class is skipped: the call returns the zero tensor and
    raises nothing, whatever the ground-truth lists hold. *)
Theorem landmark_uv_loss_no_landmarks (values : list (list point)) :
  reduction loss_fn = RNone ->
  ~ has_nan sh uv ->
  classes sh <= length values ->
  N = 0 \/ batch sh = 0 ->
  sparse_loss values = Ok (zeros (batch sh) (classes sh)).
Proof.
  intros Hr Hn Hlen Hempty. unfold landmark_uv_loss.
  rewrite Hr, (any5_isnan_false Hn). simpl.
  apply loop_skip_all. intros c Hc. apply in_seq in Hc.
  unfold class_step.
  rewrite (@anatomy_idx_at values c) by lia.
  replace (c + 1) with (S c) by lia.
  rewrite (@anatomy_idx_at values (S c)) by lia.
  assert (E : forallb
                (fun b : nat =>
                   forallb (fun o : bool => o)
                     (map outside
                        (map (norm_lm normalize_pixel_coordinates sh landmarks b)
                           (slice (class_start values c) (class_start values (S c)) N))))
                (range (batch sh)) = true).
  { destruct Hempty as [HN|HB].
    - apply forallb_forall. intros b _. unfold slice.
      replace (Nat.min (class_start values (S c)) N - class_start values c) with 0
        by (subst N; rewrite Nat.min_0_r; lia).
      reflexivity.
    - rewrite HB. reflexivity. }
  rewrite E. reflexivity.
Qed.

End LandmarkExtras.

Lemma landmark_uv_loss_missing_values_witness :
  exists msg,
    landmark_uv_loss kornia_normalize bilinear_grid_sample two_classes zero_map
      inside_and_outside 2 two_values (L1Loss RNone)
    = Err (IndexError msg).
Proof.
  apply (@landmark_uv_loss_missing_values kornia_normalize bilinear_grid_sample
           two_classes zero_map inside_and_outside 2 (L1Loss RNone) two_values).
  - reflexivity.
  - apply zero_map_no_nan.
  - simpl. lia.
Defined.

Lemma landmark_uv_loss_extra_values_witness :
  landmark_uv_loss kornia_normalize bilinear_grid_sample two_by_two zero_map
    inside_and_outside 2 (two_values ++ nan_value) (L1Loss RNone)
  = landmark_uv_loss kornia_normalize bilinear_grid_sample two_by_two zero_map
      inside_and_outside 2 two_values (L1Loss RNone).
Proof.
  apply (@landmark_uv_loss_extra_values kornia_normalize bilinear_grid_sample
           two_by_two zero_map inside_and_outside 2 (L1Loss RNone) two_values nan_value).
  simpl. lia.
Defined.

Lemma landmark_uv_loss_no_landmarks_witness :
  landmark_uv_loss kornia_normalize bilinear_grid_sample two_by_two zero_map
    inside_and_outside 0 two_values (L1Loss RNone)
  = Ok (zeros 1 1).
Proof.
  apply (@landmark_uv_loss_no_landmarks kornia_normalize bilinear_grid_sample
           two_by_two zero_map inside_and_outside 0 (L1Loss RNone) two_values).
  - reflexivity.
  - apply zero_map_no_nan.
  - simpl. lia.
  - left. reflexivity.
Defined.

Lemma class_all_outside_empty
    (normalize_pixel_coordinates : point -> nat -> nat -> point)
    (sh : Shape) (landmarks : points) (values : list (list point)) (c : nat) :
  class_size values c = 0 ->
  class_all_outside normalize_pixel_coordinates sh landmarks values c = true.
Proof.
  intros Hs. unfold class_all_outside. rewrite Hs.
  apply forallb_forall. intros b _. reflexivity.
Qed.

(** X10.  When the predicted map, sampled at every landmark that is in
    range, gives the ground-truth value of that landmark, the loss is zero
    for every class of every image, under every base loss that vanishes on
    equal entries. *)
Theorem landmark_uv_loss_perfect_prediction
    (normalize_pixel_coordinates : point -> nat -> nat -> point)
    (grid_sample : (nat -> nat -> scalar) -> nat -> nat -> point -> scalar)
    (sh : Shape) (uv : tensor5) (landmarks : points) (N : nat)
    (values : list (list point)) (loss_fn : Loss) :
  reduction loss_fn = RNone ->
  vanishes_on_equal loss_fn ->
  ~ has_nan sh uv ->
  classes sh <= length values ->
  list_sum (map (@length point) values) <= N ->
  (forall b c n,
     b < batch sh -> c < classes sh -> n < class_size values c ->
     class_outside normalize_pixel_coordinates sh landmarks values b c n = false ->
     exists u v,
       nth n (nth c values []) (NaN, NaN) = (Num u, Num v)
       /\ grid_sample (uv b c 0) (height sh) (width sh)
            (norm_lm normalize_pixel_coordinates sh landmarks b
               (class_start values c + n)) = Num u
       /\ grid_sample (uv b c 1) (height sh) (width sh)
            (norm_lm normalize_pixel_coordinates sh landmarks b
               (class_start values c + n)) = Num v) ->
  landmark_uv_loss normalize_pixel_coordinates grid_sample sh uv landmarks N values
    loss_fn
  = Ok (tabulate2 (batch sh) (classes sh) (fun _ _ => Num 0)).
Proof.
  intros Hr Hz Hn Hlen Hcov Hexact.
  rewrite landmark_uv_loss_ok by (try assumption; apply any5_isnan_false; exact Hn).
  f_equal. unfold landmark_reference. apply tabulate2_ext. intros b c Hb Hc.
  destruct (class_all_outside _ _ _ _ c) eqn:Hall; [reflexivity|].
  assert (Hsize : class_size values c <> 0).
  { intros E. rewrite class_all_outside_empty in Hall by exact E. discriminate Hall. }
  unfold class_mean. rewrite ssum_zero.
  - unfold of_nat. rewrite sdiv_Num.
    + f_equal. unfold Rdiv. apply Rmult_0_l.
    + apply not_0_INR. lia.
  - intros s Hs. unfold class_errors, range in Hs.
    apply in_flat_map in Hs. destruct Hs as (n & Hn' & Hs). apply in_seq in Hn'.
    destruct (class_outside _ _ _ _ b c n) eqn:Hout.
    + destruct Hs as [<-|[<-|[]]]; apply Hz.
    + destruct (Hexact b c n Hb Hc ltac:(lia) Hout) as (u & v & Hval & Hu & Hv).
      rewrite Hval, Hu, Hv in Hs.
      destruct Hs as [<-|[<-|[]]]; apply Hz.
Qed.

(** X11.  The sampler is never trusted out of range: two samplers that
    agree on every point inside [-1, 1]^2 give the same loss, the same
    exception included, whatever they return elsewhere. *)
Theorem landmark_uv_loss_ignores_out_of_range_samples
    (normalize_pixel_coordinates : point -> nat -> nat -> point)
    (grid_sample1 grid_sample2 : (nat -> nat -> scalar) -> nat -> nat -> point -> scalar)
    (sh : Shape) (uv : tensor5) (landmarks : points) (N : nat)
    (values : list (list point)) (loss_fn : Loss) :
  (forall img H W p, outside p = false ->
     grid_sample1 img H W p = grid_sample2 img H W p) ->
  landmark_uv_loss normalize_pixel_coordinates grid_sample1 sh uv landmarks N values
    loss_fn
  = landmark_uv_loss normalize_pixel_coordinates grid_sample2 sh uv landmarks N values
      loss_fn.
Proof.
  intros Hagree. unfold landmark_uv_loss.
  destruct (assert _ _); [|reflexivity].
  destruct (assert _ _); [|reflexivity].
  cbn [bind]. apply fold_left_ext_in. intros c acc _.
  destruct acc as [loss|e]; [|reflexivity].
  cbn [bind]. unfold class_step.
  destruct (nth_error _ c); [|reflexivity].
  destruct (nth_error _ (c + 1)); [|reflexivity].
  destruct (forallb _ _); [reflexivity|].
  destruct (_ =? _); [|reflexivity].
  do 2 f_equal. apply map_ext. intros b. f_equal.
  apply zero_where_ext. intros p Hp. rewrite !Hagree by exact Hp. reflexivity.
Qed.

Lemma length_set_column (c : nat) (col : list scalar) (loss : matrix) (B C : nat) :
  length loss = B -> length col = B -> Forall (fun row => length row = C) loss ->
  length (set_column c col loss) = B
  /\ Forall (fun row => length row = C) (set_column c col loss).
Proof.
  intros Hl Hc Hrows. unfold set_column. split.
  - rewrite length_map, length_combine. lia.
  - apply Forall_map. apply Forall_forall. intros (row & v) Hin.
    simpl. rewrite length_update.
    apply in_combine_l in Hin. rewrite Forall_forall in Hrows. apply Hrows. exact Hin.
Qed.

(** X12.  Whenever [landmark_uv_loss] returns, its result has the shape
    (batch, class): the loop writes whole columns and never changes the
    size of the loss tensor. *)
Theorem landmark_uv_loss_shape
    (normalize_pixel_coordinates : point -> nat -> nat -> point)
    (grid_sample : (nat -> nat -> scalar) -> nat -> nat -> point -> scalar)
    (sh : Shape) (uv : tensor5) (landmarks : points) (N : nat)
    (values : list (list point)) (loss_fn : Loss) (m : matrix) :
  landmark_uv_loss normalize_pixel_coordinates grid_sample sh uv landmarks N values
    loss_fn = Ok m ->
  length m = batch sh /\ Forall (fun row => length row = classes sh) m.
Proof.
  unfold landmark_uv_loss.
  destruct (assert _ _); [|discriminate].
  destruct (assert _ _); [|discriminate].
  cbn [bind].
  assert (Hz : length (zeros (batch sh) (classes sh)) = batch sh
               /\ Forall (fun row => length row = classes sh)
                         (zeros (batch sh) (classes sh))).
  { rewrite zeros_tabulate2. apply length_tabulate2. }
  revert Hz. generalize (zeros (batch sh) (classes sh)).
  generalize (range (classes sh)). intros cs. 
  induction cs as [|c cs IH]; intros loss0 [Hl Hrows]; simpl.
  - intros E. injection E as <-. split; assumption.
  - unfold class_step at 2.
    destruct (nth_error _ c);
      [|rewrite loop_Err; discriminate].
    destruct (nth_error _ (c + 1));
      [|rewrite loop_Err; discriminate].
    destruct (forallb _ _); [apply IH; split; assumption|].
    destruct (_ =? _); [|rewrite loop_Err; discriminate].
    apply IH. apply length_set_column; try assumption.
    unfold range. rewrite length_map, length_seq. reflexivity.
Qed.

Lemma landmark_uv_loss_perfect_prediction_witness :
  landmark_uv_loss kornia_normalize bilinear_grid_sample two_by_two zero_map
    inside_and_outside 2 zero_values (MSELoss RNone)
  = Ok [[Num 0]].
Proof.
  apply (@landmark_uv_loss_perfect_prediction kornia_normalize bilinear_grid_sample
           two_by_two zero_map inside_and_outside 2 zero_values (MSELoss RNone)).
  - reflexivity.
  - apply MSELoss_vanishes.
  - apply zero_map_no_nan.
  - simpl. lia.
  - simpl. lia.
  - intros b c n _ Hc Hn _. exists 0%R, 0%R.
    assert (c = 0) by (simpl in Hc; lia). subst c.
    split; [destruct n as [|[|n]]; [reflexivity | reflexivity | ]|].
    + unfold class_size in Hn. simpl in Hn. lia.
    + unfold norm_lm, inside_and_outside. cbn [height width two_by_two].
      destruct (class_start zero_values 0 + n);
        rewrite kornia_normalize_2x2; split; apply bilinear_zero_map.
Defined.

Lemma landmark_uv_loss_ignores_out_of_range_samples_witness :
  landmark_uv_loss kornia_normalize bilinear_grid_sample two_by_two zero_map
    inside_and_outside 2 two_values (L1Loss RNone)
  = landmark_uv_loss kornia_normalize guarded_sample two_by_two zero_map
      inside_and_outside 2 two_values (L1Loss RNone).
Proof.
  apply (@landmark_uv_loss_ignores_out_of_range_samples kornia_normalize
           bilinear_grid_sample guarded_sample two_by_two zero_map inside_and_outside 2
           two_values (L1Loss RNone)).
  intros img H W p Hp. unfold guarded_sample. rewrite Hp. reflexivity.
Defined.

Lemma landmark_uv_loss_shape_witness :
  length (landmark_reference kornia_normalize bilinear_grid_sample two_by_two zero_map
            inside_and_outside two_values (L1Loss RNone)) = 1
  /\ Forall (fun row => length row = 1)
       (landmark_reference kornia_normalize bilinear_grid_sample two_by_two zero_map
          inside_and_outside two_values (L1Loss RNone)).
Proof.
  apply (@landmark_uv_loss_shape kornia_normalize bilinear_grid_sample two_by_two
           zero_map inside_and_outside 2 two_values (L1Loss RNone)).
  apply landmark_uv_loss_ok.
  - simpl. lia.
  - simpl. lia.
  - reflexivity.
  - apply any5_isnan_false, zero_map_no_nan.
Defined.

(** ** Loss composition and the epoch driver *)

Lemma truthy_zero : truthy (Num 0) = false.
Proof.
  rewrite truthy_Num. destruct (Req_dec_T 0 0) as [_|F]; [reflexivity | contradiction].
Qed.

Lemma if_weight_zero (value : result scalar) : if_weight (Num 0) value = Ok (Num 0).
Proof. unfold if_weight. rewrite truthy_zero. reflexivity. Qed.

Lemma if_weight_Ok (weight value : scalar) :
  if_weight weight (Ok value) = Ok (if truthy weight then value else Num 0).
Proof. unfold if_weight. destruct (truthy weight); reflexivity. Qed.

Lemma compose_losses_zero_uv_weights (lambda_bce bce : scalar) (supervision : string)
    (reg lm tv : result scalar) :
  supervision = "dense"%string \/ supervision = "sparse"%string ->
  compose_losses lambda_bce (Num 0) (Num 0) supervision (Ok bce) reg lm tv
  = Ok (mkBatchLosses
          (smul lambda_bce (if truthy lambda_bce then bce else Num 0))
          (if truthy lambda_bce then bce else Num 0)
          (Num 0) (Num 0) (Num 0)).
Proof.
  intros Hs. unfold compose_losses.
  rewrite if_weight_Ok, !if_weight_zero. cbn [bind].
  set (b := if truthy lambda_bce then bce else Num 0).
  assert (Hd : sadd (sdiv (smul (Num 0) (sadd (Num 0) (Num 0))) (Num 2))
                    (smul (Num 0) (Num 0)) = Num 0).
  { cbv beta iota delta [smul sadd lift2]. rewrite sdiv_Num by lra.
    cbv beta iota delta [sadd lift2]. f_equal. lra. }
  assert (Hp : sadd (smul (Num 0) (Num 0)) (smul (Num 0) (Num 0)) = Num 0).
  { simpl. f_equal. lra. }
  destruct Hs as [-> | ->]; cbn [String.eqb Ascii.eqb Bool.eqb].
  - rewrite Hd, sadd_0_r. reflexivity.
  - rewrite Hp, sadd_0_r. reflexivity.
Qed.

(** X13.  With both UV weights zero the forward pass of a batch evaluates
    none of the three UV losses: it returns the weighted segmentation loss
    whatever the maps, the landmarks and the base loss are, an all-NaN
    ground truth or a one-row image included. *)
Theorem forward_batch_segmentation_only
    (normalize_pixel_coordinates : point -> nat -> nat -> point)
    (grid_sample : (nat -> nat -> scalar) -> nat -> nat -> point -> scalar)
    (lambda_bce : scalar) (supervision : string) (sh : Shape) (bce : scalar)
    (uv_hat uv : tensor5) (seg : nat -> nat -> nat -> nat -> scalar) (lm : points)
    (N : nat) (lm_uv_values : list (list point)) (uv_loss_fn : Loss) :
  supervision = "dense"%string \/ supervision = "sparse"%string ->
  forward_batch normalize_pixel_coordinates grid_sample lambda_bce (Num 0) (Num 0)
    supervision sh bce uv_hat uv seg lm N lm_uv_values uv_loss_fn
  = Ok (mkBatchLosses
          (smul lambda_bce (if truthy lambda_bce then bce else Num 0))
          (if truthy lambda_bce then bce else Num 0)
          (Num 0) (Num 0) (Num 0)).
Proof.
  intros Hs. unfold forward_batch. apply compose_losses_zero_uv_weights. exact Hs.
Qed.

Lemma forward_batch_segmentation_only_witness :
  forward_batch kornia_normalize bilinear_grid_sample (Num 1) (Num 0) (Num 0)
    "dense" one_pixel (Num 3) nan_map nan_map (fun _ _ _ _ => NaN)
    inside_and_outside 0 [] (MSELoss RMean)
  = Ok (mkBatchLosses (smul (Num 1) (if truthy (Num 1) then Num 3 else Num 0))
          (if truthy (Num 1) then Num 3 else Num 0) (Num 0) (Num 0) (Num 0)).
Proof.
  apply (@forward_batch_segmentation_only kornia_normalize bilinear_grid_sample
           (Num 1) "dense" one_pixel (Num 3) nan_map nan_map (fun _ _ _ _ => NaN)
           inside_and_outside 0 [] (MSELoss RMean)).
  left. reflexivity.
Defined.

(** X14.  The metrics of a batch run the dense L1 loss and the total
    variation whatever the weights are: with both UV weights zero the body
    of the loop still raises on a ground truth without a valid entry, and
    on an image with fewer than two rows or columns. *)
Theorem metrics_need_a_valid_map
    (normalize_pixel_coordinates : point -> nat -> nat -> point)
    (grid_sample : (nat -> nat -> scalar) -> nat -> nat -> point -> scalar)
    (lambda_bce : scalar) (supervision : string) (sh : Shape) (bce : scalar)
    (uv_hat uv : tensor5) (seg : nat -> nat -> nat -> nat -> scalar) (lm : points)
    (N : nat) (lm_uv_values : list (list point)) (uv_loss_fn : Loss) :
  supervision = "dense"%string \/ supervision = "sparse"%string ->
  (~ some_valid sh uv ->
   forward_batch_tracked normalize_pixel_coordinates grid_sample lambda_bce (Num 0)
     (Num 0) supervision sh bce uv_hat uv seg lm N lm_uv_values uv_loss_fn
   = Err (AssertionError "uv must contain some valid values"))
  /\ (some_valid sh uv -> height sh < 2 \/ width sh < 2 ->
      exists msg,
        forward_batch_tracked normalize_pixel_coordinates grid_sample lambda_bce (Num 0)
          (Num 0) supervision sh bce uv_hat uv seg lm N lm_uv_values uv_loss_fn
        = Err (RuntimeError msg)).
Proof.
  intros Hs. unfold forward_batch_tracked, forward_batch.
  rewrite compose_losses_zero_uv_weights by exact Hs. cbn [bind].
  unfold track_metrics, uv_l1_loss. split.
  - intros Hv. rewrite balanced_normalized_uv_loss_all_nan by (reflexivity || exact Hv).
    reflexivity.
  - intros Hv Hsmall.
    rewrite balanced_normalized_uv_loss_ok by (reflexivity || exact Hv).
    cbn [bind]. unfold total_variation.
    assert (E : (height sh <? 2) || (width sh <? 2) = true).
    { destruct Hsmall as [H|H]; apply Nat.ltb_lt in H; rewrite H;
        [reflexivity | apply orb_true_r]. }
    rewrite E. eexists. reflexivity.
Qed.

Lemma metrics_need_a_valid_map_witness :
  forward_batch_tracked kornia_normalize bilinear_grid_sample (Num 1) (Num 0) (Num 0)
    "dense" two_by_two (Num 3) zero_map nan_map (fun _ _ _ _ => Num 1)
    inside_and_outside 0 [] (MSELoss RNone)
  = Err (AssertionError "uv must contain some valid values")
  /\ exists msg,
       forward_batch_tracked kornia_normalize bilinear_grid_sample (Num 1) (Num 0)
         (Num 0) "dense" one_pixel (Num 3) zero_map one_map (fun _ _ _ _ => Num 1)
         inside_and_outside 0 [] (MSELoss RNone)
       = Err (RuntimeError msg).
Proof.
  split.
  - apply (@metrics_need_a_valid_map kornia_normalize bilinear_grid_sample (Num 1)
             "dense" two_by_two (Num 3) zero_map nan_map (fun _ _ _ _ => Num 1)
             inside_and_outside 0 [] (MSELoss RNone)).
    + left. reflexivity.
    + intros (b & c & u & y & x & _ & _ & _ & _ & _ & E). discriminate E.
  - apply (@metrics_need_a_valid_map kornia_normalize bilinear_grid_sample (Num 1)
             "dense" one_pixel (Num 3) zero_map one_map (fun _ _ _ _ => Num 1)
             inside_and_outside 0 [] (MSELoss RNone)).
    + left. reflexivity.
    + exists 0, 0, 0, 0, 0. unfold UV. simpl. repeat split; lia.
    + left. simpl. lia.
Defined.

(** X15.  In sparse mode the combined loss does not depend on the value of
    the dense regression loss, which only reaches the logged record; but the
    dense loss is evaluated all the same under a non-zero UV weight, so a
    ground truth without a valid entry makes the batch raise in sparse mode
    too. *)
Theorem sparse_mode_evaluates_dense_loss
    (normalize_pixel_coordinates : point -> nat -> nat -> point)
    (grid_sample : (nat -> nat -> scalar) -> nat -> nat -> point -> scalar)
    (lambda_bce lambda_reg_uv lambda_tv : scalar) (sh : Shape) (bce : scalar)
    (uv_hat uv : tensor5) (seg : nat -> nat -> nat -> nat -> scalar) (lm : points)
    (N : nat) (lm_uv_values : list (list point)) (uv_loss_fn : Loss) :
  truthy lambda_reg_uv = true ->
  reduction uv_loss_fn = RNone ->
  ~ some_valid sh uv ->
  forward_batch normalize_pixel_coordinates grid_sample lambda_bce lambda_reg_uv
    lambda_tv "sparse" sh bce uv_hat uv seg lm N lm_uv_values uv_loss_fn
  = Err (AssertionError "uv must contain some valid values")
  /\ forall bce' reg1 reg2 lm' tv' r1,
       compose_losses lambda_bce lambda_reg_uv lambda_tv "sparse"
         bce' (Ok reg1) lm' tv' = Ok r1 ->
       exists r2,
         compose_losses lambda_bce lambda_reg_uv lambda_tv "sparse"
           bce' (Ok reg2) lm' tv' = Ok r2
         /\ loss r2 = loss r1 /\ uv_loss r2 = uv_loss r1
         /\ bce_loss r2 = bce_loss r1 /\ lm_loss r2 = lm_loss r1.
Proof.
  intros Ht Hr Hv. split.
  - unfold forward_batch, compose_losses.
    rewrite if_weight_Ok. cbn [bind].
    unfold if_weight at 1. rewrite Ht.
    rewrite balanced_normalized_uv_loss_all_nan by assumption. reflexivity.
  - intros bce' reg1 reg2 lm' tv' r1. unfold compose_losses.
    destruct (if_weight lambda_bce bce') as [b|e]; [|discriminate].
    rewrite !if_weight_Ok.
    destruct (if_weight lambda_reg_uv lm') as [l|e]; [|discriminate].
    destruct (if_weight lambda_tv tv') as [t|e]; [|discriminate].
    cbn [bind String.eqb Ascii.eqb Bool.eqb].
    intros E. injection E as <-. eexists. split; [reflexivity|].
    repeat split.
Qed.

Lemma sparse_mode_evaluates_dense_loss_witness :
  forward_batch kornia_normalize bilinear_grid_sample (Num 0) (Num 1) (Num 0)
    "sparse" two_by_two (Num 0) zero_map nan_map (fun _ _ _ _ => Num 1)
    inside_and_outside 2 two_values (L1Loss RNone)
  = Err (AssertionError "uv must contain some valid values").
Proof.
  apply (@sparse_mode_evaluates_dense_loss kornia_normalize bilinear_grid_sample
           (Num 0) (Num 1) (Num 0) two_by_two (Num 0) zero_map nan_map
           (fun _ _ _ _ => Num 1) inside_and_outside 2 two_values (L1Loss RNone)).
  - rewrite truthy_Num. destruct (Req_dec_T 1 0) as [F|_]; [lra | reflexivity].
  - reflexivity.
  - intros (b & c & u & y & x & _ & _ & _ & _ & _ & E). discriminate E.
Defined.

(** X16.  [forward] checks its configuration before it reads a batch, the
    weights first: without a non-zero weight it fails its assertion, also
    under an unknown mode; with one, a mode other than 'train', 'test' and
    'val' raises the value error that quotes the mode. *)
Theorem forward_checks_configuration
    (normalize_pixel_coordinates : point -> nat -> nat -> point)
    (grid_sample : (nat -> nat -> scalar) -> nat -> nat -> point -> scalar)
    (mode : string) (lambdas : list scalar) (supervision : string)
    (lm_uv_values : list (list point)) (uv_loss_fn : Loss) (data_loader : list Batch) :
  (Forall (fun w => w = Num 0) lambdas ->
   forward normalize_pixel_coordinates grid_sample mode lambdas supervision
     lm_uv_values uv_loss_fn data_loader
   = Err (AssertionError "At least one weighting for loss must be non-zero"))
  /\ (Exists (fun w => truthy w = true) lambdas ->
      mode <> "train"%string -> mode <> "test"%string -> mode <> "val"%string ->
      forward normalize_pixel_coordinates grid_sample mode lambdas supervision
        lm_uv_values uv_loss_fn data_loader
      = Err (ValueError ("Unknown mode: " ++ mode))).
Proof.
  split.
  - intros Hz. unfold forward.
    assert (E : existsb truthy lambdas = false).
    { induction Hz as [|w ws Hw _ IH]; [reflexivity|].
      simpl. rewrite Hw, truthy_zero, IH. reflexivity. }
    rewrite E. reflexivity.
  - intros Hw Ht Hte Hv. unfold forward.
    assert (E : existsb truthy lambdas = true).
    { apply existsb_exists. apply Exists_exists in Hw. exact Hw. }
    rewrite E. cbn [assert bind].
    apply String.eqb_neq in Ht, Hte, Hv. rewrite Ht, Hte, Hv. reflexivity.
Qed.

(** ** Heatmap synthesis and the heatmap drivers *)

Lemma heatmap_exponent (std_pixel : Z) (d : R) :
  std_pixel <> 0%Z -> (0 <= d)%R ->
  (- d / (2 * IZR std_pixel ^ 2) <= 0)%R
  /\ ((- d / (2 * IZR std_pixel ^ 2) = 0)%R <-> d = 0%R).
Proof.
  intros Hs Hd.
  assert (Hr : (IZR std_pixel <> 0)%R) by (apply not_0_IZR; exact Hs).
  assert (Hc : (0 < 2 * IZR std_pixel ^ 2)%R).
  { assert (0 < IZR std_pixel ^ 2)%R by (apply pow_lt_0_compat || (simpl; nra)).
    lra. }
  assert (Hi : (0 < / (2 * IZR std_pixel ^ 2))%R) by (apply Rinv_0_lt_compat; exact Hc).
  unfold Rdiv. split.
  - assert (0 <= d * / (2 * IZR std_pixel ^ 2))%R
      by (apply Rmult_le_pos; [exact Hd | lra]).
    lra.
  - split.
    + intros E. apply Rmult_integral in E. destruct E as [E|E]; lra.
    + intros ->. lra.
Qed.

Lemma squared_distance (a b : R) :
  (0 <= a ^ 2 + b ^ 2)%R /\ ((a ^ 2 + b ^ 2 = 0)%R <-> a = 0%R /\ b = 0%R).
Proof.
  replace (a ^ 2)%R with (Rsqr a) by (unfold Rsqr; ring).
  replace (b ^ 2)%R with (Rsqr b) by (unfold Rsqr; ring).
  pose proof (Rle_0_sqr a). pose proof (Rle_0_sqr b).
  split; [lra|]. split.
  - apply Rplus_sqr_eq_0.
  - intros [-> ->]. rewrite Rsqr_0. lra.
Qed.

(** X17.  Under a positive amplitude every pixel of the channel of a
    landmark holds a number above zero and at most [alpha], and holds
    [alpha] exactly at the landmark: the peak of the heatmap is on the
    landmark when the landmark is on a pixel, and nowhere when it is not. *)
Theorem heatmap_range (H W : nat) (std_pixel alpha : Z) (lm : points)
    (b n y x : nat) (lx ly : R) :
  std_pixel <> 0%Z -> (0 < alpha)%Z -> x < W -> lm b n = (Num lx, Num ly) ->
  exists v,
    heatmap H W std_pixel alpha lm b n y x = Num v
    /\ (0 < v <= IZR alpha)%R
    /\ (v = IZR alpha <-> lx = IZR (Z.of_nat x) /\ ly = IZR (Z.of_nat y)).
Proof.
  intros Hs Ha Hx Hlm. eexists. split; [apply heatmap_value; eassumption|].
  set (dx := (IZR (Z.of_nat x) - lx)%R). set (dy := (IZR (Z.of_nat y) - ly)%R).
  destruct (squared_distance dx dy) as [Hd0 Hdz].
  destruct (heatmap_exponent Hs Hd0) as [Ht Htz].
  set (t := (- (dx ^ 2 + dy ^ 2) / (2 * IZR std_pixel ^ 2))%R) in *.
  assert (Hal : (0 < IZR alpha)%R) by (apply IZR_lt; exact Ha).
  pose proof (exp_pos t) as Hp.
  assert (He : (exp t <= 1)%R).
  { destruct (Rle_lt_or_eq_dec _ _ Ht) as [Hlt|Heq].
    - apply exp_increasing in Hlt. rewrite exp_0 in Hlt. lra.
    - rewrite Heq, exp_0. lra. }
  split; [split|].
  - apply Rmult_lt_0_compat; assumption.
  - rewrite <- (Rmult_1_r (IZR alpha)) at 2.
    apply Rmult_le_compat_l; lra.
  - split.
    + intros E.
      assert (E1 : exp t = 1%R).
      { apply (Rmult_eq_reg_l (IZR alpha)); lra. }
      rewrite <- exp_0 in E1. apply exp_inv in E1.
      apply Htz, Hdz in E1. unfold dx, dy in E1. lra.
    + intros [Ex Ey].
      assert (E0 : t = 0%R).
      { apply Htz, Hdz. unfold dx, dy. lra. }
      rewrite E0, exp_0. lra.
Qed.

Lemma heatmap_range_witness :
  exists v,
    heatmap 3 3 1 1 centre_landmark 0 0 0 2 = Num v
    /\ (0 < v <= IZR 1)%R
    /\ (v = IZR 1 <-> 1%R = IZR (Z.of_nat 2) /\ 1%R = IZR (Z.of_nat 0)).
Proof.
  apply (@heatmap_range 3 3 1 1 centre_landmark 0 0 0 2 1 1).
  - discriminate.
  - lia.
  - lia.
  - reflexivity.
Defined.

(** X18.  Under a positive amplitude the heatmap of a landmark decreases
    with the distance to it: of two pixels, the one nearer to the landmark
    holds the larger value. *)
Theorem heatmap_decreases_with_distance (H W : nat) (std_pixel alpha : Z)
    (lm : points) (b n y1 x1 y2 x2 : nat) (lx ly : R) :
  std_pixel <> 0%Z -> (0 < alpha)%Z -> x1 < W -> x2 < W ->
  lm b n = (Num lx, Num ly) ->
  ((IZR (Z.of_nat x1) - lx) ^ 2 + (IZR (Z.of_nat y1) - ly) ^ 2
   < (IZR (Z.of_nat x2) - lx) ^ 2 + (IZR (Z.of_nat y2) - ly) ^ 2)%R ->
  exists v1 v2,
    heatmap H W std_pixel alpha lm b n y1 x1 = Num v1
    /\ heatmap H W std_pixel alpha lm b n y2 x2 = Num v2
    /\ (v2 < v1)%R.
Proof.
  intros Hs Ha Hx1 Hx2 Hlm Hd. do 2 eexists.
  split; [apply heatmap_value; eassumption|].
  split; [apply heatmap_value; eassumption|].
  assert (Hal : (0 < IZR alpha)%R) by (apply IZR_lt; exact Ha).
  apply Rmult_lt_compat_l; [exact Hal|].
  apply exp_increasing.
  assert (Hr : (IZR std_pixel <> 0)%R) by (apply not_0_IZR; exact Hs).
  assert (Hc : (0 < / (2 * IZR std_pixel ^ 2))%R).
  { apply Rinv_0_lt_compat.
    assert (0 < IZR std_pixel ^ 2)%R by (apply pow_lt_0_compat || (simpl; nra)).
    lra. }
  unfold Rdiv. apply Rmult_lt_compat_r; [exact Hc | lra].
Qed.

Lemma heatmap_decreases_with_distance_witness :
  exists v1 v2,
    heatmap 3 3 1 1 centre_landmark 0 0 1 2 = Num v1
    /\ heatmap 3 3 1 1 centre_landmark 0 0 0 2 = Num v2
    /\ (v2 < v1)%R.
Proof.
  apply (@heatmap_decreases_with_distance 3 3 1 1 centre_landmark 0 0 1 2 0 2 1 1).
  - discriminate.
  - lia.
  - lia.
  - lia.
  - reflexivity.
  - simpl. lra.
Defined.

(** X19.  The standard deviation enters the heatmap through its square
    only: a negative [std_pixel] is accepted and gives the heatmap of its
    absolute value. *)
Theorem heatmap_std_sign (H W : nat) (std_pixel alpha : Z) (lm : points)
    (b n y x : nat) :
  heatmap H W (- std_pixel) alpha lm b n y x = heatmap H W std_pixel alpha lm b n y x.
Proof.
  unfold heatmap, gaussian.
  replace ((- std_pixel) ^ 2)%Z with (std_pixel ^ 2)%Z
    by (rewrite !Z.pow_2_r; lia).
  reflexivity.
Qed.

Lemma sadd_NaN_r (s : scalar) : sadd s NaN = NaN.
Proof. destruct s; reflexivity. Qed.

Lemma ssub_NaN_r (s : scalar) : ssub s NaN = NaN.
Proof. destruct s; reflexivity. Qed.

Lemma ssum_NaN (l : list scalar) : In NaN l -> ssum l = NaN.
Proof.
  induction l as [|a l IH]; intros Hin; [contradiction|].
  rewrite ssum_cons. destruct Hin as [->|Hin]; [reflexivity|].
  rewrite IH by exact Hin. apply sadd_NaN_r.
Qed.

Lemma smean_NaN (l : list scalar) : In NaN l -> smean l = NaN.
Proof. intros Hin. unfold smean. rewrite ssum_NaN by exact Hin. reflexivity. Qed.

Lemma smean_zero (l : list scalar) :
  l <> [] -> (forall s, In s l -> s = Num 0) -> smean l = Num 0.
Proof.
  intros Hne Hz. unfold smean, of_nat. rewrite ssum_zero by exact Hz.
  rewrite sdiv_Num.
  - f_equal. unfold Rdiv. apply Rmult_0_l.
  - apply not_0_INR. destruct l; [contradiction | simpl; lia].
Qed.

Lemma smean_empty : smean [] = NaN.
Proof.
  unfold smean, of_nat, sdiv. simpl.
  destruct (Req_dec_T 0 0) as [_|F]; [reflexivity | contradiction].
Qed.

Lemma in_entries4 {A : Type} (B N H W : nat) (f : nat -> nat -> nat -> nat -> A) (a : A) :
  In a (entries4 B N H W f) <->
  exists b n y x, b < B /\ n < N /\ y < H /\ x < W /\ a = f b n y x.
Proof.
  unfold entries4, range. split.
  - intros Ha.
    apply in_flat_map in Ha. destruct Ha as (b & Hb & Ha).
    apply in_flat_map in Ha. destruct Ha as (n & Hn & Ha).
    apply in_flat_map in Ha. destruct Ha as (y & Hy & Ha).
    apply in_map_iff in Ha. destruct Ha as (x & Ha & Hx).
    apply in_seq in Hb, Hn, Hy, Hx.
    exists b, n, y, x. repeat split; try lia. congruence.
  - intros (b & n & y & x & Hb & Hn & Hy & Hx & ->).
    apply in_flat_map. exists b. split; [apply in_seq; lia|].
    apply in_flat_map. exists n. split; [apply in_seq; lia|].
    apply in_flat_map. exists y. split; [apply in_seq; lia|].
    apply in_map. apply in_seq. lia.
Qed.

Lemma heatmap_NaN (H W : nat) (std_pixel alpha : Z) (lm : points) (b n y x : nat) :
  isnan (fst (lm b n)) = true \/ isnan (snd (lm b n)) = true ->
  heatmap H W std_pixel alpha lm b n y x = NaN.
Proof.
  intros Hnan. unfold heatmap, gaussian.
  destruct (lm b n) as [lx ly]. cbn [fst snd] in *.
  assert (E : ssum (map spow2 [ssub (of_Z (fst (grid H W (y * W + x)))) lx;
                               ssub (of_Z (snd (grid H W (y * W + x)))) ly]) = NaN).
  { apply ssum_NaN. destruct Hnan as [Hl|Hl].
    - destruct lx; [|discriminate]. left. reflexivity.
    - destruct ly; [|discriminate]. right. left. reflexivity. }
  rewrite E. reflexivity.
Qed.

(** X20.  A NaN coordinate of one landmark makes the whole channel of that
    landmark NaN, and with it the loss of the batch, whatever the model
    predicts. *)
Theorem heatmap_nan_landmark (PIXEL_RESOLUTION_MM : scalar) (B N H W : nat)
    (std_pixel alpha : Z) (lm : points) (b n : nat) :
  b < B -> n < N -> 0 < H -> 0 < W ->
  isnan (fst (lm b n)) = true \/ isnan (snd (lm b n)) = true ->
  (forall y x, heatmap H W std_pixel alpha lm b n y x = NaN)
  /\ forall heatmap_hat lm_hat organs,
       heatmap_mse (forward_heatmap_batch PIXEL_RESOLUTION_MM B N H W std_pixel alpha
                      lm heatmap_hat lm_hat organs)
       = NaN.
Proof.
  intros Hb Hn HH HW Hnan. split.
  - intros y x. apply heatmap_NaN. exact Hnan.
  - intros heatmap_hat lm_hat organs.
    unfold forward_heatmap_batch, heatmap_mse, mse_loss.
    apply smean_NaN. apply in_entries4.
    exists b, n, 0, 0. repeat split; try assumption.
    rewrite heatmap_NaN by exact Hnan. rewrite ssub_NaN_r. reflexivity.
Qed.

Lemma heatmap_nan_landmark_witness :
  (forall y x, heatmap 3 3 1 1 (fun _ _ => (NaN, Num 1)) 0 0 y x = NaN)
  /\ forall heatmap_hat lm_hat organs,
       heatmap_mse (forward_heatmap_batch (Num 1) 1 1 3 3 1 1 (fun _ _ => (NaN, Num 1))
                      heatmap_hat lm_hat organs)
       = NaN.
Proof.
  apply (@heatmap_nan_landmark (Num 1) 1 1 3 3 1 1 (fun _ _ => (NaN, Num 1)) 0 0);
    try lia.
  left. reflexivity.
Defined.

(** X21.  A model that predicts the synthesised heatmap exactly has a loss
    of zero, when every landmark has numbers for coordinates and the batch
    is not empty. *)
Theorem heatmap_exact_prediction (PIXEL_RESOLUTION_MM : scalar) (B N H W : nat)
    (std_pixel alpha : Z) (lm : points) (heatmap_hat : tensor4) (lm_hat : points)
    (organs : list (nat * nat)) :
  0 < B -> 0 < N -> 0 < H -> 0 < W ->
  std_pixel <> 0%Z ->
  (forall b n, b < B -> n < N -> exists lx ly, lm b n = (Num lx, Num ly)) ->
  (forall b n y x, b < B -> n < N -> y < H -> x < W ->
     heatmap_hat b n y x = heatmap H W std_pixel alpha lm b n y x) ->
  heatmap_mse (forward_heatmap_batch PIXEL_RESOLUTION_MM B N H W std_pixel alpha lm
                 heatmap_hat lm_hat organs)
  = Num 0.
Proof.
  intros HB HN HH HW Hs Hlm Hhat.
  unfold forward_heatmap_batch, heatmap_mse, mse_loss.
  apply smean_zero.
  - intros E.
    assert (Hin : In (spow2 (ssub (heatmap_hat 0 0 0 0)
                                  (heatmap H W std_pixel alpha lm 0 0 0 0)))
                     (entries4 B N H W (fun b n y x =>
                        spow2 (ssub (heatmap_hat b n y x)
                                    (heatmap H W std_pixel alpha lm b n y x))))).
    { apply in_entries4. exists 0, 0, 0, 0. repeat split; assumption. }
    rewrite E in Hin. exact Hin.
  - intros s Hin. apply in_entries4 in Hin.
    destruct Hin as (b & n & y & x & Hb & Hn & Hy & Hx & ->).
    rewrite Hhat by assumption.
    destruct (Hlm b n Hb Hn) as (lx & ly & E).
    rewrite (@heatmap_value H W std_pixel alpha lm b n y x lx ly Hs Hx E).
    simpl. f_equal. ring.
Qed.

Lemma heatmap_exact_prediction_witness :
  heatmap_mse (forward_heatmap_batch (Num 1) 1 1 3 3 1 1 centre_landmark
                 (heatmap 3 3 1 1 centre_landmark) centre_landmark [(0, 1)])
  = Num 0.
Proof.
  apply (@heatmap_exact_prediction (Num 1) 1 1 3 3 1 1 centre_landmark
           (heatmap 3 3 1 1 centre_landmark) centre_landmark [(0, 1)]); try lia.
  - intros b n _ _. exists 1%R, 1%R. reflexivity.
  - reflexivity.
Defined.

Lemma tre_value (res : R) (lm lm_hat : points) (b n : nat) (x y x' y' : R) :
  lm b n = (Num x, Num y) -> lm_hat b n = (Num x', Num y') ->
  tre (Num res) lm lm_hat b n
  = Num (sqrt ((x - x') * (x - x') + (y - y') * (y - y')) * res).
Proof.
  intros E E'. unfold tre, vector_norm. rewrite E, E'.
  cbn [fst snd map ssum fold_right].
  cbv beta iota delta [ssub lift2]. rewrite sadd_0_r, ssqrt_sum_of_squares.
  reflexivity.
Qed.

(** X22.  The registration error of a landmark is its Euclidean distance to
    the prediction times the pixel resolution: under a positive resolution
    it is never negative, and it is zero exactly when the prediction is on
    the landmark. *)
Theorem tre_zero_iff_exact (res : R) (lm lm_hat : points) (b n : nat)
    (x y x' y' : R) :
  (0 < res)%R ->
  lm b n = (Num x, Num y) -> lm_hat b n = (Num x', Num y') ->
  exists e,
    tre (Num res) lm lm_hat b n = Num e
    /\ (0 <= e)%R
    /\ (e = 0%R <-> lm b n = lm_hat b n).
Proof.
  intros Hres E E'. eexists. split; [apply tre_value; eassumption|].
  set (d := ((x - x') * (x - x') + (y - y') * (y - y'))%R).
  assert (Hd : (0 <= d)%R).
  { unfold d. pose proof (Rle_0_sqr (x - x')). pose proof (Rle_0_sqr (y - y')).
    unfold Rsqr in *. lra. }
  pose proof (sqrt_pos d) as Hs.
  split; [apply Rmult_le_pos; lra|].
  split.
  - intros Hz. apply Rmult_integral in Hz. destruct Hz as [Hz|Hz]; [|lra].
    apply sqrt_eq_0 in Hz; [|exact Hd].
    destruct (squared_distance (x - x') (y - y')) as [_ Hiff].
    assert (Hxy : (x - x' = 0 /\ y - y' = 0)%R).
    { apply Hiff. unfold d in Hz. simpl. lra. }
    rewrite E, E'. destruct Hxy as [Hx Hy].
    replace x' with x by lra. replace y' with y by lra. reflexivity.
  - intros Heq. rewrite E, E' in Heq. injection Heq as <- <-.
    unfold d. replace ((x - x) * (x - x) + (y - y) * (y - y))%R with 0%R by ring.
    rewrite sqrt_0. lra.
Qed.

Lemma tre_zero_iff_exact_witness :
  exists e,
    tre (Num (1 / 4)) centre_landmark off_image 0 0 = Num e
    /\ (0 <= e)%R
    /\ (e = 0%R <-> centre_landmark 0 0 = off_image 0 0).
Proof.
  apply (@tre_zero_iff_exact (1 / 4) centre_landmark off_image 0 0 1 1 5 0).
  - lra.
  - reflexivity.
  - reflexivity.
Defined.

(** X23.  The error of an anatomical structure is a mean over its index
    range: a range without a landmark in the tensor, empty or past the last
    landmark, gives NaN, and so does every range on an empty batch. *)
Theorem tre_organ_without_landmark (PIXEL_RESOLUTION_MM : scalar) (B N H W : nat)
    (std_pixel alpha : Z) (lm : points) (heatmap_hat : tensor4) (lm_hat : points)
    (organs : list (nat * nat)) (k start stop : nat) :
  nth_error organs k = Some (start, stop) ->
  stop <= start \/ N <= start \/ B = 0 ->
  nth_error (tre_organ (forward_heatmap_batch PIXEL_RESOLUTION_MM B N H W std_pixel
                          alpha lm heatmap_hat lm_hat organs)) k
  = Some NaN.
Proof.
  intros Hk Hempty. unfold forward_heatmap_batch, tre_organ.
  rewrite nth_error_map, Hk. cbn [option_map fst snd]. f_equal.
  unfold mean_slice.
  assert (E : flat_map (fun b => map (tre PIXEL_RESOLUTION_MM lm lm_hat b)
                                     (slice start stop N)) (range B) = []).
  { destruct Hempty as [Hs|[Hs|Hs]].
    - unfold slice. replace (Nat.min stop N - start) with 0 by lia.
      induction (range B); [reflexivity | exact IHl].
    - unfold slice. replace (Nat.min stop N - start) with 0 by lia.
      induction (range B); [reflexivity | exact IHl].
    - subst B. reflexivity. }
  rewrite E. apply smean_empty.
Qed.

Lemma tre_organ_without_landmark_witness :
  nth_error (tre_organ (forward_heatmap_batch (Num 1) 1 1 3 3 1 1 centre_landmark
                          (heatmap 3 3 1 1 centre_landmark) centre_landmark
                          [(0, 1); (1, 1)])) 1
  = Some NaN.
Proof.
  apply (@tre_organ_without_landmark (Num 1) 1 1 3 3 1 1 centre_landmark
           (heatmap 3 3 1 1 centre_landmark) centre_landmark [(0, 1); (1, 1)] 1 1 1).
  - reflexivity.
  - left. lia.
Defined.

(** X24.  The loss of [forward_heatmap_and_seg] blends its two terms and
    skips neither: with a coefficient of one it is the segmentation loss and
    with zero the heatmap loss, when both are numbers; a NaN in either term
    makes it NaN under every coefficient, zero and one included; and for a
    coefficient between zero and one it lies between the two terms. *)
Theorem heatmap_and_seg_loss_blend :
  (forall s h, heatmap_and_seg_loss (Num 1) (Num s) (Num h) = Num s)
  /\ (forall s h, heatmap_and_seg_loss (Num 0) (Num s) (Num h) = Num h)
  /\ (forall lambda_loss s, heatmap_and_seg_loss lambda_loss s NaN = NaN)
  /\ (forall lambda_loss h, heatmap_and_seg_loss lambda_loss NaN h = NaN)
  /\ (forall l s h, (0 <= l <= 1)%R ->
        exists v, heatmap_and_seg_loss (Num l) (Num s) (Num h) = Num v
                  /\ (Rmin s h <= v <= Rmax s h)%R).
Proof.
  unfold heatmap_and_seg_loss. repeat split.
  - intros s h. simpl. f_equal. lra.
  - intros s h. simpl. f_equal. lra.
  - intros l s. destruct l, s; reflexivity.
  - intros l h. destruct l, h; reflexivity.
  - intros l s h Hl. eexists. split; [reflexivity|].
    unfold Rmin, Rmax. destruct (Rle_dec s h) as [Hsh|Hsh].
    + assert (P1 : (0 <= (1 - l) * (h - s))%R) by (apply Rmult_le_pos; lra).
      assert (P2 : (0 <= l * (h - s))%R) by (apply Rmult_le_pos; lra).
      lra.
    + assert (P1 : (0 <= (1 - l) * (s - h))%R) by (apply Rmult_le_pos; lra).
      assert (P2 : (0 <= l * (s - h))%R) by (apply Rmult_le_pos; lra).
      lra.
Qed.

(** ** The training script *)

Lemma existsb_not_In (k : string) (l : list string) :
  ~ In k l -> existsb (String.eqb k) l = false.
Proof.
  intros Hn. destruct (existsb _ l) eqn:E; [|reflexivity].
  apply existsb_exists in E. destruct E as (k' & Hin & Hk).
  apply String.eqb_eq in Hk. subst k'. contradiction.
Qed.

(** X25.  [forward_heatmap] has no default for [alpha]: a call that gives
    at most seven positional arguments and no keyword [alpha] raises a type
    error.  The call of [train_heatmap.py], three positional arguments and
    the keywords of [fwd_kwargs], is such a call. *)
Theorem forward_heatmap_call_needs_alpha (positional : nat) (keywords : list string) :
  positional <= 7 ->
  ~ In "alpha"%string keywords ->
  exists msg,
    bind_call forward_heatmap_parameters positional keywords = TypeError msg.
Proof.
  intros Hp Hk. unfold bind_call.
  destruct (Nat.ltb_spec (length forward_heatmap_parameters) positional) as [F|_];
    [simpl in F; lia|].
  destruct (find _ keywords); [eexists; reflexivity|].
  destruct (find _ keywords); [eexists; reflexivity|].
  destruct (find _ forward_heatmap_parameters) as [p|] eqn:E; [eexists; reflexivity|].
  exfalso.
  pose proof (find_none _ _ E ("alpha"%string, false)) as Hnone.
  cbn [fst snd negb andb] in Hnone.
  rewrite existsb_app, (@existsb_not_In "alpha" keywords Hk), orb_false_r in Hnone.
  assert (Hpos : existsb (String.eqb "alpha")
                   (firstn positional (map fst forward_heatmap_parameters)) = false).
  { do 8 (destruct positional as [|positional]; [reflexivity|]). lia. }
  rewrite Hpos in Hnone.
  assert (Hin : In ("alpha"%string, false) forward_heatmap_parameters)
    by (simpl; tauto).
  specialize (Hnone Hin). discriminate Hnone.
Qed.

Lemma forward_heatmap_call_needs_alpha_witness :
  (exists msg, bind_call forward_heatmap_parameters 3 fwd_kwargs = TypeError msg)
  /\ bind_call forward_heatmap_parameters 3 fwd_kwargs
     = TypeError "missing required argument alpha"
  /\ bind_call forward_heatmap_parameters 3 ("alpha"%string :: fwd_kwargs) = Bound.
Proof.
  split; [|split; reflexivity].
  apply (@forward_heatmap_call_needs_alpha 3 fwd_kwargs).
  - lia.
  - simpl. intros [H|[H|[H|[H|[H|[]]]]]]; discriminate H.
Defined.
